(** * Authentication and authorization core of the user-management frontend

    A shallow embedding of
      - frontend/src/lib/api.ts        (types, [APIClient]: token storage,
                                        interceptors, refresh, login),
      - frontend/src/store/auth.ts     (the zustand auth store and its
                                        permission queries),
      - components/auth/ProtectedRoute (the [PermissionGate] check),
      - the providers file             ([AuthInitializer.initializeAuth]),
      - the login form                 ([LoginForm.onSubmit],
                                        [LoginForm.handle2FASubmit]),
    followed by the properties proved about them.

    Conventions.  A JS value of type [T | null | undefined] is an
    [option T]; [localStorage] and the cookie jar are finite maps from
    names to strings; an awaited promise is the [Outcome] it settles to
    (or [Pending] when nothing in the run settles it); the code that runs
    between two awaits is one atomic step, as on the JS event loop. *)

From stdpp Require Import base option strings gmap list.

Local Open Scope string_scope.
Local Open Scope list_scope.

(* ================================================================== *)
(** * Part I. Definitions                                              *)
(* ================================================================== *)

(** ** Types of api.ts *)

Module Permission.
Record t := mk {
  id : string;
  name : string;
  description : option string;
  resource : string;
  action : string;
  created_at : string }.
End Permission.

Module Role.
Record t := mk {
  id : string;
  name : string;
  description : option string;
  is_system_role : bool;
  created_at : string;
  updated_at : string;
  permissions : list Permission.t }.
End Role.

Module User.
Record t := mk {
  id : string;
  email : string;
  username : option string;
  first_name : string;
  last_name : string;
  phone_number : option string;
  bio : option string;
  timezone : string;
  language : string;
  is_active : bool;
  is_verified : bool;
  is_superuser : bool;
  is_2fa_enabled : bool;
  last_login : option string;
  created_at : string;
  updated_at : string;
  roles : list Role.t }.
End User.

(** [Partial<User>]: every key may be absent. *)
Module PartialUser.
Record t := mk {
  id : option string;
  email : option string;
  username : option string;
  first_name : option string;
  last_name : option string;
  phone_number : option string;
  bio : option string;
  timezone : option string;
  language : option string;
  is_active : option bool;
  is_verified : option bool;
  is_superuser : option bool;
  is_2fa_enabled : option bool;
  last_login : option string;
  created_at : option string;
  updated_at : option string;
  roles : option (list Role.t) }.
End PartialUser.

Module Token.
Record t := mk {
  access_token : string;
  refresh_token : string;
  token_type : string;
  expires_in : Z }.
End Token.

Module LoginRequest.
Record t := mk {
  email : string;
  password : string;
  remember_me : option bool }.
End LoginRequest.

Module LoginResponse.
Record t := mk {
  user : User.t;
  token : Token.t;
  message : string }.
End LoginResponse.

(** ** JavaScript truthiness of the values the code tests *)

(** A string is truthy unless it is empty; [null]/[undefined] are falsy. *)
Definition truthy (v : option string) : bool :=
  match v with
  | Some s => negb (String.eqb s "")
  | None => false
  end.

(** Every array object is truthy, the empty array included. *)
Definition truthy_array {A : Type} (xs : list A) : bool := true.

(** [a || b] on values of type [string | null | undefined]. *)
Definition js_or (a b : option string) : option string :=
  if truthy a then a else b.

(** [{ ...user, ...updates }]: keys present in [updates] win. *)
Definition spread (u : User.t) (p : PartialUser.t) : User.t :=
  {| User.id := default (User.id u) (PartialUser.id p);
     User.email := default (User.email u) (PartialUser.email p);
     User.username := from_option Some (User.username u) (PartialUser.username p);
     User.first_name := default (User.first_name u) (PartialUser.first_name p);
     User.last_name := default (User.last_name u) (PartialUser.last_name p);
     User.phone_number :=
       from_option Some (User.phone_number u) (PartialUser.phone_number p);
     User.bio := from_option Some (User.bio u) (PartialUser.bio p);
     User.timezone := default (User.timezone u) (PartialUser.timezone p);
     User.language := default (User.language u) (PartialUser.language p);
     User.is_active := default (User.is_active u) (PartialUser.is_active p);
     User.is_verified := default (User.is_verified u) (PartialUser.is_verified p);
     User.is_superuser :=
       default (User.is_superuser u) (PartialUser.is_superuser p);
     User.is_2fa_enabled :=
       default (User.is_2fa_enabled u) (PartialUser.is_2fa_enabled p);
     User.last_login :=
       from_option Some (User.last_login u) (PartialUser.last_login p);
     User.created_at := default (User.created_at u) (PartialUser.created_at p);
     User.updated_at := default (User.updated_at u) (PartialUser.updated_at p);
     User.roles := default (User.roles u) (PartialUser.roles p) |}.

(** A [User] passed where a [Partial<User>] is expected: every required
    key is present, an optional key is present when it has a value. *)
Definition as_partial (u : User.t) : PartialUser.t :=
  {| PartialUser.id := Some (User.id u);
     PartialUser.email := Some (User.email u);
     PartialUser.username := User.username u;
     PartialUser.first_name := Some (User.first_name u);
     PartialUser.last_name := Some (User.last_name u);
     PartialUser.phone_number := User.phone_number u;
     PartialUser.bio := User.bio u;
     PartialUser.timezone := Some (User.timezone u);
     PartialUser.language := Some (User.language u);
     PartialUser.is_active := Some (User.is_active u);
     PartialUser.is_verified := Some (User.is_verified u);
     PartialUser.is_superuser := Some (User.is_superuser u);
     PartialUser.is_2fa_enabled := Some (User.is_2fa_enabled u);
     PartialUser.last_login := User.last_login u;
     PartialUser.created_at := Some (User.created_at u);
     PartialUser.updated_at := Some (User.updated_at u);
     PartialUser.roles := Some (User.roles u) |}.

(** ** The auth store (store/auth.ts) *)

Module Store.

Record AuthState := mkState {
  user : option User.t;
  isAuthenticated : bool;
  isLoading : bool }.

Definition initial : AuthState :=
  {| user := None; isAuthenticated := false; isLoading := false |}.

(** [isAuthenticated: !!user] *)
Definition setUser (u : option User.t) (st : AuthState) : AuthState :=
  {| user := u;
     isAuthenticated := match u with Some _ => true | None => false end;
     isLoading := isLoading st |}.

Definition setLoading (b : bool) (st : AuthState) : AuthState :=
  {| user := user st; isAuthenticated := isAuthenticated st; isLoading := b |}.

Definition login (u : User.t) (st : AuthState) : AuthState :=
  {| user := Some u; isAuthenticated := true; isLoading := false |}.

Definition logout (st : AuthState) : AuthState :=
  {| user := None; isAuthenticated := false; isLoading := false |}.

(** [user: state.user ? { ...state.user, ...updates } : null]; the other
    two fields are not part of the patch and stay. *)
Definition updateUser (updates : PartialUser.t) (st : AuthState) : AuthState :=
  {| user := match user st with
             | Some u => Some (spread u updates)
             | None => None
             end;
     isAuthenticated := isAuthenticated st;
     isLoading := isLoading st |}.

Definition hasPermission (st : AuthState) (permission : string) : bool :=
  match user st with
  | None => false
  | Some u =>
      if negb (truthy_array (User.roles u)) then false
      else if User.is_superuser u then true
      else existsb
             (fun role =>
                existsb (fun perm => String.eqb (Permission.name perm) permission)
                        (Role.permissions role))
             (User.roles u)
  end.

Definition hasRole (st : AuthState) (roleName : string) : bool :=
  match user st with
  | None => false
  | Some u =>
      if negb (truthy_array (User.roles u)) then false
      else existsb (fun role => String.eqb (Role.name role) roleName) (User.roles u)
  end.

(** [roleNames.includes(role.name)] *)
Definition includes (xs : list string) (x : string) : bool :=
  existsb (fun y => String.eqb y x) xs.

Definition hasAnyRole (st : AuthState) (roleNames : list string) : bool :=
  match user st with
  | None => false
  | Some u =>
      if negb (truthy_array (User.roles u)) then false
      else existsb (fun role => includes roleNames (Role.name role)) (User.roles u)
  end.

Definition hasAnyPermission (st : AuthState) (permissions : list string) : bool :=
  match user st with
  | None => false
  | Some u =>
      if negb (truthy_array (User.roles u)) then false
      else if User.is_superuser u then true
      else existsb (fun permission => hasPermission st permission) permissions
  end.

(** The actions a component can dispatch on the store. *)
Inductive Action :=
| SetUser (u : option User.t)
| SetLoading (b : bool)
| Login (u : User.t)
| Logout
| UpdateUser (updates : PartialUser.t).

Definition step (st : AuthState) (a : Action) : AuthState :=
  match a with
  | SetUser u => setUser u st
  | SetLoading b => setLoading b st
  | Login u => login u st
  | Logout => logout st
  | UpdateUser p => updateUser p st
  end.

Definition run (acts : list Action) (st : AuthState) : AuthState :=
  foldl step st acts.

(** The relation the store is meant to keep between its two fields. *)
Definition consistent (st : AuthState) : Prop :=
  isAuthenticated st = true <-> user st <> None.

End Store.

(** ** PermissionGate (components/auth/ProtectedRoute.tsx)

    [useHasPermission(p)] and [useHasRole(r)] select
    [state.hasPermission(p)] and [state.hasRole(r)] from the store. *)

Module PermissionGate.

Definition hasRequiredPermissions
    (st : Store.AuthState) (requiredPermissions : list string) (requireAll : bool)
  : bool :=
  Nat.eqb (length requiredPermissions) 0
  || (if requireAll
      then forallb (fun permission => Store.hasPermission st permission)
                   requiredPermissions
      else existsb (fun permission => Store.hasPermission st permission)
                   requiredPermissions).

Definition hasRequiredRoles
    (st : Store.AuthState) (requiredRoles : list string) (requireAll : bool)
  : bool :=
  Nat.eqb (length requiredRoles) 0
  || (if requireAll
      then forallb (fun role => Store.hasRole st role) requiredRoles
      else existsb (fun role => Store.hasRole st role) requiredRoles).

Definition hasAccess
    (st : Store.AuthState) (requiredPermissions requiredRoles : list string)
    (requireAll : bool) : bool :=
  hasRequiredPermissions st requiredPermissions requireAll
  && hasRequiredRoles st requiredRoles requireAll.

End PermissionGate.

(** ** The HTTP boundary as the client sees it *)

(** The part of an axios request config the client reads or writes.
    [_retry] is the flag the response interceptor sets on a config it has
    already retried; a fresh config has it unset. *)
Module Config.
Record t := mk {
  method : string;
  url : string;
  data : list (string * string);
  Authorization : option string;
  _retry : bool }.

Definition set_Authorization (v : option string) (config : t) : t :=
  mk (method config) (url config) (data config) v (_retry config).

Definition set_retry (b : bool) (config : t) : t :=
  mk (method config) (url config) (data config) (Authorization config) b.
End Config.

(** [response.data]: a JSON object of one of the shapes the backend sends. *)
Inductive Payload :=
| TokenData (t : Token.t)
| LoginData (r : LoginResponse.t)
| UserData (u : User.t)
| OtherData (body : string).

(** What the backend answers to one request: a 2xx response with its
    data, or a failure with [error.response?.status] ([None] when no
    response arrived at all). *)
Inductive Response :=
| Ok (data : Payload)
| Fail (status : option Z).

Module AxiosError.
Record t := mk {
  status : option Z;
  config : Config.t }.
End AxiosError.

(** What an awaited promise does within a run: it resolves, it rejects, or
    it is still unsettled when the run has nothing left to do. *)
Inductive Outcome (A : Type) :=
| Resolved (a : A)
| Rejected (e : AxiosError.t)
| Pending.
Arguments Resolved {A} a.
Arguments Rejected {A} e.
Arguments Pending {A}.

(** The backend collaborator: its answer may depend on every request it
    has received so far. *)
Definition Backend := list Config.t -> Config.t -> Response.

(** Promises are named by the position their exchange takes in the log of
    backend calls. *)
Definition Promise := nat.

(** ** The state of one running client process *)

Record Client := mkClient {
  store : Store.AuthState;            (* useAuthStore *)
  actions : list Store.Action;        (* store actions dispatched so far *)
  cookies : gmap string string;       (* js-cookie / document.cookie *)
  localStorage : gmap string string;
  refreshPromise : option Promise;    (* APIClient.refreshPromise *)
  calls : list Config.t;              (* requests that reached the backend *)
  location : string;                  (* window.location / router *)
  logoutCalls : nat }.                (* invocations of APIClient.logout *)

Definition with_store (v : Store.AuthState) (c : Client) : Client :=
  mkClient v (actions c) (cookies c) (localStorage c) (refreshPromise c)
           (calls c) (location c) (logoutCalls c).

Definition with_actions (v : list Store.Action) (c : Client) : Client :=
  mkClient (store c) v (cookies c) (localStorage c) (refreshPromise c)
           (calls c) (location c) (logoutCalls c).

Definition with_cookies (v : gmap string string) (c : Client) : Client :=
  mkClient (store c) (actions c) v (localStorage c) (refreshPromise c)
           (calls c) (location c) (logoutCalls c).

Definition with_localStorage (v : gmap string string) (c : Client) : Client :=
  mkClient (store c) (actions c) (cookies c) v (refreshPromise c)
           (calls c) (location c) (logoutCalls c).

Definition with_refreshPromise (v : option Promise) (c : Client) : Client :=
  mkClient (store c) (actions c) (cookies c) (localStorage c) v
           (calls c) (location c) (logoutCalls c).

Definition with_calls (v : list Config.t) (c : Client) : Client :=
  mkClient (store c) (actions c) (cookies c) (localStorage c) (refreshPromise c)
           v (location c) (logoutCalls c).

Definition with_location (v : string) (c : Client) : Client :=
  mkClient (store c) (actions c) (cookies c) (localStorage c) (refreshPromise c)
           (calls c) v (logoutCalls c).

Definition with_logoutCalls (v : nat) (c : Client) : Client :=
  mkClient (store c) (actions c) (cookies c) (localStorage c) (refreshPromise c)
           (calls c) (location c) v.

(** A component calling a store action. *)
Definition dispatch (a : Store.Action) (c : Client) : Client :=
  with_actions (actions c ++ [a]) (with_store (Store.step (store c) a) c).

(** Browser storage primitives. *)
Definition Cookies_get (k : string) (c : Client) : option string :=
  cookies c !! k.
Definition Cookies_set (k v : string) (c : Client) : Client :=
  with_cookies (<[k := v]> (cookies c)) c.
Definition Cookies_remove (k : string) (c : Client) : Client :=
  with_cookies (delete k (cookies c)) c.
Definition localStorage_getItem (k : string) (c : Client) : option string :=
  localStorage c !! k.
Definition localStorage_setItem (k v : string) (c : Client) : Client :=
  with_localStorage (<[k := v]> (localStorage c)) c.
Definition localStorage_removeItem (k : string) (c : Client) : Client :=
  with_localStorage (delete k (localStorage c)) c.

(** ** APIClient (lib/api.ts) *)

Module APIClient.

Definition getAccessToken (c : Client) : option string :=
  js_or (Cookies_get "access_token" c) (localStorage_getItem "access_token" c).

Definition getRefreshToken (c : Client) : option string :=
  js_or (Cookies_get "refresh_token" c) (localStorage_getItem "refresh_token" c).

(** [rememberMe: boolean = false]: an absent flag is [false]. *)
Definition setTokens
    (accessToken refreshToken : string) (rememberMe : option bool) (c : Client)
  : Client :=
  if default false rememberMe
  then Cookies_set "refresh_token" refreshToken
         (Cookies_set "access_token" accessToken c)
  else localStorage_setItem "refresh_token" refreshToken
         (localStorage_setItem "access_token" accessToken c).

Definition clearTokens (c : Client) : Client :=
  localStorage_removeItem "refresh_token"
    (localStorage_removeItem "access_token"
       (Cookies_remove "refresh_token"
          (Cookies_remove "access_token" c))).

(** Request interceptor: attach the stored access token when there is one. *)
Definition request_interceptor (c : Client) (config : Config.t) : Config.t :=
  match getAccessToken c with
  | Some token =>
      if truthy (Some token)
      then Config.set_Authorization (Some ("Bearer " +:+ token)) config
      else config
  | None => config
  end.

(** *** refreshAccessToken, in its two halves

    [refresh_begin] is the synchronous part, up to and including the
    assignment of [this.refreshPromise]; [refresh_settle] is the
    [.then/.catch/.finally] chain that runs when the POST settles. *)

Inductive Begun :=
| Shared (p : Promise)                       (* return this.refreshPromise *)
| NoRefreshToken                             (* return null *)
| Issued (p : Promise) (config : Config.t).  (* a new exchange was started *)

Definition refresh_config (refreshToken : string) : Config.t :=
  Config.mk "POST" "/auth/refresh" [("refresh_token", refreshToken)] None false.

Definition refresh_begin (c : Client) : Begun * Client :=
  match refreshPromise c with
  | Some p => (Shared p, c)
  | None =>
      match getRefreshToken c with
      | Some refreshToken =>
          if truthy (Some refreshToken)
          then let p := length (calls c) in
               (Issued p (refresh_config refreshToken),
                with_refreshPromise (Some p) c)
          else (NoRefreshToken, c)
      | None => (NoRefreshToken, c)
      end
  end.

(** [const { access_token } = response.data] *)
Definition access_token_of (data : Payload) : option string :=
  match data with
  | TokenData t => Some (Token.access_token t)
  | _ => None
  end.

(** Storage keeps strings: storing [undefined] stores its name. *)
Definition String_ (v : option string) : string := default "undefined" v.

Definition refresh_then (data : Payload) (c : Client) : option string * Client :=
  let access_token := access_token_of data in
  (access_token,
   if truthy (Cookies_get "access_token" c)
   then Cookies_set "access_token" (String_ access_token) c
   else localStorage_setItem "access_token" (String_ access_token) c).

Definition refresh_settle (r : Outcome Payload) (c : Client)
  : Outcome (option string) * Client :=
  (* .then *)
  let '(r1, c1) :=
    match r with
    | Resolved data => let '(v, c') := refresh_then data c in (Resolved v, c')
    | Rejected e => (Rejected e, c)
    | Pending => (Pending, c)
    end in
  (* .catch *)
  let '(r2, c2) :=
    match r1 with
    | Rejected _ => (Resolved None, clearTokens c1)
    | _ => (r1, c1)
    end in
  (* .finally *)
  match r2 with
  | Pending => (Pending, c2)
  | _ => (r2, with_refreshPromise None c2)
  end.

(** The whole of [refreshAccessToken] as one awaited call, given the
    pipeline [post] that carries the exchange.  When a refresh is already
    in flight the caller is handed that promise and waits for it.  Nothing
    in the caller's own run settles it: either it is the refresh whose own
    response is being intercepted, and the wait is circular, or it belongs
    to another request, and the caller goes on when that one settles
    ([arrive] and [resume] below).  In both cases this run ends
    [Pending]. *)
Definition refreshAccessToken_with
    (post : Client -> Config.t -> option (Outcome Payload * Client)) (c : Client)
  : option (Outcome (option string) * Client) :=
  match refresh_begin c with
  | (Shared _, c0) => Some (Pending, c0)
  | (NoRefreshToken, c0) => Some (Resolved None, c0)
  | (Issued _ config, c0) =>
      '(r, c1) ← post c0 config;
      Some (refresh_settle r c1)
  end.

(** [this.client(config)]: request interceptor, the backend, response
    interceptor.  [handleError] only raises toasts and is left out.  The
    recursion (a retry, or the refresh exchange travelling through the same
    pipeline) is bounded by [fuel]; two units always suffice. *)
Fixpoint client (fuel : nat) (backend : Backend) (c : Client) (config : Config.t)
  : option (Outcome Payload * Client) :=
  match fuel with
  | O => None
  | S fuel' =>
      let config := request_interceptor c config in
      let response := backend (calls c) config in
      let c := with_calls (calls c ++ [config]) c in
      match response with
      | Ok data => Some (Resolved data, c)
      | Fail status =>
          if bool_decide (status = Some 401%Z) && negb (Config._retry config)
          then
            let originalRequest := Config.set_retry true config in
            '(newToken, c) ← refreshAccessToken_with (client fuel' backend) c;
            match newToken with
            | Resolved (Some token) =>
                if truthy (Some token)
                then client fuel' backend c
                       (Config.set_Authorization (Some ("Bearer " +:+ token))
                                                 originalRequest)
                else Some (Rejected (AxiosError.mk status originalRequest), c)
            | Resolved None =>
                Some (Rejected (AxiosError.mk status originalRequest), c)
            | Rejected refreshError =>
                (* catch: this.logout(); window.location.href = '/login' *)
                Some (Rejected refreshError,
                      with_location "/login"
                        (with_logoutCalls (S (logoutCalls c)) c))
            | Pending => Some (Pending, c)
            end
          else Some (Rejected (AxiosError.mk status config), c)
      end
  end.

Definition refreshAccessToken (fuel : nat) (backend : Backend) (c : Client)
  : option (Outcome (option string) * Client) :=
  refreshAccessToken_with (client fuel backend) c.

(** *** The pipeline, cut at the interceptor's await

    [arrive] is the pipeline up to the point where the response
    interceptor is either done or stands at
    [await this.refreshAccessToken()]; [resume] is the interceptor from
    the point where that await has returned [newToken].  [client] joins
    the two by a refresh that the request runs itself.  A request whose 401
    finds another request's refresh in flight is handed the shared promise
    by [refresh_begin] and resumes, in the state the client is in by then,
    with the value that promise settles to ([refresh_settle]). *)

Inductive Arrived :=
| Finished (r : Outcome Payload)
| AwaitsRefresh (status : option Z) (originalRequest : Config.t).

Definition arrive (backend : Backend) (c : Client) (config : Config.t)
  : Arrived * Client :=
  let config := request_interceptor c config in
  let response := backend (calls c) config in
  let c := with_calls (calls c ++ [config]) c in
  match response with
  | Ok data => (Finished (Resolved data), c)
  | Fail status =>
      if bool_decide (status = Some 401%Z) && negb (Config._retry config)
      then (AwaitsRefresh status (Config.set_retry true config), c)
      else (Finished (Rejected (AxiosError.mk status config)), c)
  end.

Definition resume
    (fuel : nat) (backend : Backend) (c : Client)
    (status : option Z) (originalRequest : Config.t)
    (newToken : Outcome (option string))
  : option (Outcome Payload * Client) :=
  match newToken with
  | Resolved (Some token) =>
      if truthy (Some token)
      then client fuel backend c
             (Config.set_Authorization (Some ("Bearer " +:+ token))
                                       originalRequest)
      else Some (Rejected (AxiosError.mk status originalRequest), c)
  | Resolved None =>
      Some (Rejected (AxiosError.mk status originalRequest), c)
  | Rejected refreshError =>
      Some (Rejected refreshError,
            with_location "/login" (with_logoutCalls (S (logoutCalls c)) c))
  | Pending => Some (Pending, c)
  end.

(** [login]: [http] is what [await this.client.post('/auth/login', ...)]
    settles to, [c] the client at that moment. *)
Definition login
    (credentials : LoginRequest.t) (http : Outcome LoginResponse.t) (c : Client)
  : Outcome LoginResponse.t * Client :=
  match http with
  | Resolved data =>
      let token := LoginResponse.token data in
      (Resolved data,
       setTokens (Token.access_token token) (Token.refresh_token token)
                 (LoginRequest.remember_me credentials) c)
  | Rejected e => (Rejected e, c)
  | Pending => (Pending, c)
  end.

(** [getCurrentUser]: GET /auth/me through the pipeline. *)
Definition getCurrentUser (fuel : nat) (backend : Backend) (c : Client)
  : option (Outcome Payload * Client) :=
  client fuel backend c (Config.mk "GET" "/auth/me" [] None false).

(** [logout]: the POST is made only when a refresh token is stored, its
    failure is ignored, and the tokens are cleared once it has settled. *)
Definition logout_config (refreshToken : string) : Config.t :=
  Config.mk "POST" "/auth/logout" [("refresh_token", refreshToken)] None false.

Definition logout (fuel : nat) (backend : Backend) (c : Client)
  : option (Outcome unit * Client) :=
  match getRefreshToken c with
  | Some refreshToken =>
      if truthy (Some refreshToken)
      then
        '(r, c1) ← client fuel backend c (logout_config refreshToken);
        match r with
        | Pending => Some (Pending, c1)
        | _ => Some (Resolved tt, clearTokens c1)
        end
      else Some (Resolved tt, clearTokens c)
  | None => Some (Resolved tt, clearTokens c)
  end.

(** [handleError].  What it reads of the error: [error.response] with its
    status and its data ([None]: an empty body), and whether
    [error.request] is set.  The result is the text handed to
    [toast.error], if any. *)
Record ErrorData := mkErrorData {
  message : option string;
  detail : option string }.

Record Failure := mkFailure {
  response : option (Z * option ErrorData);
  request : bool }.

(** [a || b] with a string literal on the right. *)
Definition js_or_else (a : option string) (b : string) : string :=
  match a with
  | Some s => if truthy (Some s) then s else b
  | None => b
  end.

Definition handleError (error : Failure) : option string :=
  match response error with
  | Some (status, Some errorData) =>
      let message :=
        js_or_else (js_or (message errorData) (detail errorData))
                   "An error occurred" in
      if negb (Z.eqb status 401) then Some message else None
  | _ =>
      if request error
      then Some "Network error. Please check your connection."
      else Some "An unexpected error occurred."
  end.

End APIClient.

(** ** Concurrent callers of refreshAccessToken

    Requests overlap only at their awaits.  What the event loop interleaves
    are therefore two kinds of atomic steps: some caller (a response
    interceptor that met a 401) invokes [refreshAccessToken] and gets a
    promise back, or the exchange in flight settles and its handler chain
    runs. *)

Module SingleFlight.

Inductive Event :=
| CallRefresh
| ExchangeSettles (r : Outcome Payload).

(** One invocation: the synchronous half; a newly issued exchange goes out
    through the request interceptor and reaches the backend. *)
Definition refresh_call (c : Client) : APIClient.Begun * Client :=
  let '(b, c') := APIClient.refresh_begin c in
  match b with
  | APIClient.Issued _ config =>
      (b, with_calls (calls c' ++ [APIClient.request_interceptor c' config]) c')
  | _ => (b, c')
  end.

(** One step of the interleaving; the list collects what callers got. *)
Definition event_step (e : Event) (c : Client) : list APIClient.Begun * Client :=
  match e with
  | CallRefresh => let '(b, c') := refresh_call c in ([b], c')
  | ExchangeSettles r =>
      match refreshPromise c with
      | Some _ => ([], snd (APIClient.refresh_settle r c))
      | None => ([], c)
      end
  end.

Fixpoint run (es : list Event) (c : Client) : list APIClient.Begun * Client :=
  match es with
  | [] => ([], c)
  | e :: es' =>
      let '(bs, c1) := event_step e c in
      let '(bs', c2) := run es' c1 in
      (bs ++ bs', c2)
  end.

Definition is_refresh (config : Config.t) : bool :=
  String.eqb (Config.url config) "/auth/refresh".

(** Refresh exchanges that reached the backend. *)
Definition exchanges (c : Client) : nat :=
  length (filter (fun q => is_refresh q = true) (calls c)).

(** Whether an exchange is in flight, and how many settlements a trace
    of events contains. *)
Definition in_flight (c : Client) : nat :=
  match refreshPromise c with Some _ => 1 | None => 0 end.

Definition is_settlement (e : Event) : bool :=
  match e with
  | ExchangeSettles _ => true
  | CallRefresh => false
  end.

Definition settles (es : list Event) : nat :=
  length (filter (fun e => is_settlement e = true) es).

End SingleFlight.

(** ** AuthInitializer (the providers file) *)

Module AuthInitializer.

(** [row.split('=')[1]] for the row ['access_token=' + v]: the text of [v]
    up to its first ['='] (character 61). *)
Fixpoint before_eq (v : string) : string :=
  match v with
  | EmptyString => EmptyString
  | String ch rest =>
      if Ascii.eqb ch (Ascii.ascii_of_nat 61)
      then EmptyString
      else String ch (before_eq rest)
  end.

(** What [document.cookie] holds for a value that [Cookies.set] wrote:
    js-cookie percent-encodes the value ([encodeURIComponent]) and undoes
    the escapes of  # $ & + / : < = > ? @ [ ] ^ ` { | }.  A byte is
    therefore kept when it is a letter, a digit, one of
    - _ . ! ~ * ' ( )  or one of those eighteen; every other byte [n] is
    written %XX, with XX the two upper-case hexadecimal digits of [n].
    ([cookies] maps a name to the value [Cookies.get] returns, which is the
    decoded one.) *)
Definition kept (ch : Ascii.ascii) : bool :=
  let n := Ascii.nat_of_ascii ch in
  (Nat.leb 48 n && Nat.leb n 57)
  || (Nat.leb 65 n && Nat.leb n 90)
  || (Nat.leb 97 n && Nat.leb n 122)
  || existsb (Nat.eqb n)
       [45; 95; 46; 33; 126; 42; 39; 40; 41;
        35; 36; 38; 43; 47; 58; 60; 61; 62; 63; 64; 91; 93; 94; 96;
        123; 124; 125].

Definition hex_digit (n : nat) : Ascii.ascii :=
  Ascii.ascii_of_nat (if Nat.ltb n 10 then 48 + n else 55 + n).

Fixpoint written (v : string) : string :=
  match v with
  | EmptyString => EmptyString
  | String ch rest =>
      if kept ch
      then String ch (written rest)
      else
        let n := Ascii.nat_of_ascii ch in
        String (Ascii.ascii_of_nat 37)
          (String (hex_digit (n / 16))
             (String (hex_digit (n mod 16)) (written rest)))
  end.

(** [document.cookie.split('; ').find(row =>
       row.startsWith('access_token='))?.split('=')[1]] *)
Definition document_cookie_access_token (c : Client) : option string :=
  before_eq <$> (written <$> cookies c !! "access_token").

(** [localStorage.getItem('access_token') || <the cookie lookup above>] *)
Definition stored_access_token (c : Client) : option string :=
  js_or (localStorage_getItem "access_token" c) (document_cookie_access_token c).

(** The catch block: drop the user and erase the four stored entries. *)
Definition on_error (c : Client) : Client :=
  Cookies_remove "refresh_token"
    (Cookies_remove "access_token"
       (localStorage_removeItem "refresh_token"
          (localStorage_removeItem "access_token"
             (dispatch (Store.SetUser None) c)))).

(** [getCurrentUser] is the awaited call [apiClient.getCurrentUser()]; it
    may change the client while it runs (a transparent refresh). *)
Definition initializeAuth
    (getCurrentUser : Client -> Outcome User.t * Client) (c : Client) : Client :=
  let c := dispatch (Store.SetLoading true) c in
  let accessToken := stored_access_token c in
  (* try / catch *)
  let '(completed, c) :=
    if truthy accessToken
    then
      let '(r, c) := getCurrentUser c in
      match r with
      | Resolved user => (true, dispatch (Store.SetUser (Some user)) c)
      | Rejected _ => (true, on_error c)
      | Pending => (false, c)
      end
    else (true, dispatch (Store.SetUser None) c) in
  (* finally *)
  if completed then dispatch (Store.SetLoading false) c else c.

End AuthInitializer.

(** ** LoginForm (the login form file) *)

Module LoginForm.

Record State := mkState {
  showPassword : bool;
  isLoading : bool;
  show2FA : bool;
  tempToken : string }.

Definition initial : State := mkState false false false "".

Record Page := mkPage {
  client : Client;
  form : State }.

Definition setIsLoading (b : bool) (s : State) : State :=
  mkState (showPassword s) b (show2FA s) (tempToken s).
Definition setShow2FA (b : bool) (s : State) : State :=
  mkState (showPassword s) (isLoading s) b (tempToken s).
Definition setTempToken (t : string) (s : State) : State :=
  mkState (showPassword s) (isLoading s) (show2FA s) t.

(** [if (onSuccess) onSuccess(); else router.push(redirectTo)] *)
Definition proceed
    (onSuccess : option (Client -> Client)) (redirectTo : string) (c : Client)
  : Client :=
  match onSuccess with
  | Some callback => callback c
  | None => with_location redirectTo c
  end.

Definition onSubmit
    (onSuccess : option (Client -> Client)) (redirectTo : string)
    (data : LoginRequest.t) (http : Outcome LoginResponse.t) (pg : Page) : Page :=
  let f := setIsLoading true (form pg) in
  let '(r, c) := APIClient.login data http (client pg) in
  match r with
  | Resolved response =>
      if String.eqb (LoginResponse.message response)
                    "Two-factor authentication required"
      then
        mkPage c
          (setIsLoading false
             (setTempToken (Token.access_token (LoginResponse.token response))
                (setShow2FA true f)))
      else
        mkPage
          (proceed onSuccess redirectTo
             (dispatch (Store.Login (LoginResponse.user response)) c))
          (setIsLoading false f)
  | Rejected _ => mkPage c (setIsLoading false f)
  | Pending => mkPage c f
  end.

(** [http] is what [await apiClient.login2FA(code)] settles to, for a call
    that leaves the client as it is while it runs. *)
Definition handle2FASubmit
    (onSuccess : option (Client -> Client)) (redirectTo : string)
    (code : string) (http : Outcome LoginResponse.t) (pg : Page) : Page :=
  let f := setIsLoading true (form pg) in
  let c := localStorage_setItem "access_token" (tempToken f) (client pg) in
  match http with
  | Resolved response =>
      let token := LoginResponse.token response in
      let c := localStorage_setItem "access_token" (Token.access_token token) c in
      let c := localStorage_setItem "refresh_token" (Token.refresh_token token) c in
      mkPage
        (proceed onSuccess redirectTo
           (dispatch (Store.Login (LoginResponse.user response)) c))
        (setIsLoading false f)
  | Rejected _ =>
      let originalToken := localStorage_getItem "access_token" c in
      let c :=
        match originalToken with
        | Some t =>
            if truthy (Some t) && negb (String.eqb t (tempToken f))
            then localStorage_setItem "access_token" t c
            else localStorage_removeItem "access_token" c
        | None => localStorage_removeItem "access_token" c
        end in
      mkPage c (setIsLoading false f)
  | Pending => mkPage c f
  end.

(** The same handler with the awaited call itself: [login2FA] is
    [apiClient.login2FA(code)] run on the client as the handler has left
    it, and it may change that client before it settles (the interceptor's
    refresh rewrites or erases stored tokens).  [handle2FASubmit] above is
    the case of a call that leaves the client as it is. *)
Definition handle2FASubmit_with
    (onSuccess : option (Client -> Client)) (redirectTo : string)
    (code : string) (login2FA : Client -> Outcome LoginResponse.t * Client)
    (pg : Page) : Page :=
  let f := setIsLoading true (form pg) in
  let c := localStorage_setItem "access_token" (tempToken f) (client pg) in
  let '(http, c) := login2FA c in
  match http with
  | Resolved response =>
      let token := LoginResponse.token response in
      let c := localStorage_setItem "access_token" (Token.access_token token) c in
      let c := localStorage_setItem "refresh_token" (Token.refresh_token token) c in
      mkPage
        (proceed onSuccess redirectTo
           (dispatch (Store.Login (LoginResponse.user response)) c))
        (setIsLoading false f)
  | Rejected _ =>
      let originalToken := localStorage_getItem "access_token" c in
      let c :=
        match originalToken with
        | Some t =>
            if truthy (Some t) && negb (String.eqb t (tempToken f))
            then localStorage_setItem "access_token" t c
            else localStorage_removeItem "access_token" c
        | None => localStorage_removeItem "access_token" c
        end in
      mkPage c (setIsLoading false f)
  | Pending => mkPage c f
  end.

(** [onBack={() => setShow2FA(false)}] *)
Definition onBack (pg : Page) : Page :=
  mkPage (client pg) (setShow2FA false (form pg)).

(** The pages on which the form waits for the second factor: entered from
    a logged-out store by a submit that the backend answers with
    'Two-factor authentication required', and kept while a code is being
    verified and by every code the backend rejects. *)
Inductive AwaitingSecondFactor : Page -> Prop :=
| awaiting_enter onSuccess redirectTo data response pg :
    Store.user (store (client pg)) = None ->
    LoginResponse.message response = "Two-factor authentication required" ->
    AwaitingSecondFactor
      (onSubmit onSuccess redirectTo data (Resolved response) pg)
| awaiting_verifying onSuccess redirectTo code pg :
    AwaitingSecondFactor pg ->
    AwaitingSecondFactor
      (handle2FASubmit onSuccess redirectTo code Pending pg)
| awaiting_retry onSuccess redirectTo code e pg :
    AwaitingSecondFactor pg ->
    AwaitingSecondFactor
      (handle2FASubmit onSuccess redirectTo code (Rejected e) pg).

End LoginForm.

(** ** TwoFactorForm (the login form file) *)

Module TwoFactorForm.

(** A character [\D] does not match: one of 0..9.  (Every byte of a
    character outside ASCII is a non-digit, as the character itself is.) *)
Definition is_digit (ch : Ascii.ascii) : bool :=
  Nat.leb 48 (Ascii.nat_of_ascii ch) && Nat.leb (Ascii.nat_of_ascii ch) 57.

(** [value.replace(/\D/g, '')] *)
Fixpoint strip_non_digits (value : string) : string :=
  match value with
  | EmptyString => EmptyString
  | String ch rest =>
      if is_digit ch
      then String ch (strip_non_digits rest)
      else strip_non_digits rest
  end.

(** [s.slice(0, n)] *)
Fixpoint slice0 (n : nat) (s : string) : string :=
  match n, s with
  | S n', String ch rest => String ch (slice0 n' rest)
  | _, _ => EmptyString
  end.

(** [onChange]: the new value of the [code] state. *)
Definition onChange (value : string) : string :=
  slice0 6 (strip_non_digits value).

(** [handleSubmit]: the code handed to [onSubmit], if any. *)
Definition handleSubmit (code : string) : option string :=
  if Nat.eqb (String.length code) 6 then Some code else None.

End TwoFactorForm.

(** ** ProtectedRoute and useRequireAuth
       (components/auth/ProtectedRoute.tsx) *)

Module ProtectedRoute.

Record Props := mkProps {
  requireAuth : bool;
  requiredPermissions : list string;
  requiredRoles : list string;
  fallbackUrl : string;
  requireAll : bool }.

(** The defaults of the destructured props. *)
Definition defaults : Props := mkProps true [] [] "/login" false.

(** What the component puts on the screen. *)
Inductive View :=
| Spinner
| Nothing
| AccessDenied
| Children.

(** [PermissionGate], as rendered by the route. *)
Definition gate (st : Store.AuthState) (p : Props) : View :=
  if PermissionGate.hasAccess st (requiredPermissions p) (requiredRoles p)
                              (requireAll p)
  then Children
  else AccessDenied.

Definition guarded (p : Props) : bool :=
  Nat.ltb 0 (length (requiredPermissions p))
  || Nat.ltb 0 (length (requiredRoles p)).

(** What the component function returns for a store state.  This is what
    is on the screen after the first render, and after a later one unless
    React refuses it ([rerender] below). *)
Definition render (st : Store.AuthState) (p : Props) : View :=
  if Store.isLoading st then Spinner
  else if requireAuth p && negb (Store.isAuthenticated st) then Nothing
  else if Store.isAuthenticated st && guarded p then gate st p
  else Children.

(** The [router.push] of the effects that run with the first render: the
    route's own, and the gate's when the gate is rendered. *)
Definition redirect (st : Store.AuthState) (p : Props) : option string :=
  if negb (Store.isLoading st) && requireAuth p
     && negb (Store.isAuthenticated st)
  then Some (fallbackUrl p)
  else
    match render st p with
    | AccessDenied => Some "/unauthorized"
    | _ => None
    end.

(** The gate calls its store hooks inside the callbacks of [every] and
    [some]: one hook call for each name the array method visits, and it
    visits names only up to the first that decides the answer. *)
Fixpoint visited_every (f : string -> bool) (names : list string) : nat :=
  match names with
  | [] => 0
  | x :: rest => if f x then S (visited_every f rest) else 1
  end.

Fixpoint visited_some (f : string -> bool) (names : list string) : nat :=
  match names with
  | [] => 0
  | x :: rest => if f x then 1 else S (visited_some f rest)
  end.

Definition visited (requireAll : bool) : (string -> bool) -> list string -> nat :=
  if requireAll then visited_every else visited_some.

Definition gate_hooks (st : Store.AuthState) (p : Props) : nat :=
  visited (requireAll p) (Store.hasPermission st) (requiredPermissions p)
  + visited (requireAll p) (Store.hasRole st) (requiredRoles p).

(** Whether the route's render returns the gate. *)
Definition mounts_gate (st : Store.AuthState) (p : Props) : bool :=
  negb (Store.isLoading st)
  && negb (requireAuth p && negb (Store.isAuthenticated st))
  && (Store.isAuthenticated st && guarded p).

(** A render that follows the render for [prev], after the store has
    become [st]: a gate that stays mounted must call as many hooks as it
    did before, or React throws and nothing of the route is shown. *)
Inductive Shown :=
| Shows (v : View)
| Throws.

Definition rerender (prev st : Store.AuthState) (p : Props) : Shown :=
  if mounts_gate prev p && mounts_gate st p
     && negb (Nat.eqb (gate_hooks prev p) (gate_hooks st p))
  then Throws
  else Shows (render st p).

End ProtectedRoute.

Module UseRequireAuth.

Record Options := mkOptions {
  requiredPermissions : option (list string);
  requiredRoles : option (list string);
  requireAll : option bool }.

(** [!options?.requiredPermissions?.length || (options.requireAll ? ...)] *)
Definition hasRequiredPermissions
    (st : Store.AuthState) (options : option Options) : bool :=
  match options with
  | None => true
  | Some o =>
      match requiredPermissions o with
      | None => true
      | Some names =>
          Nat.eqb (length names) 0
          || (if default false (requireAll o)
              then forallb (fun permission => Store.hasPermission st permission)
                           names
              else existsb (fun permission => Store.hasPermission st permission)
                           names)
      end
  end.

Definition hasRequiredRoles
    (st : Store.AuthState) (options : option Options) : bool :=
  match options with
  | None => true
  | Some o =>
      match requiredRoles o with
      | None => true
      | Some names =>
          Nat.eqb (length names) 0
          || (if default false (requireAll o)
              then forallb (fun role => Store.hasRole st role) names
              else existsb (fun role => Store.hasRole st role) names)
      end
  end.

Definition hasAccess (st : Store.AuthState) (options : option Options) : bool :=
  Store.isAuthenticated st
  && hasRequiredPermissions st options
  && hasRequiredRoles st options.

End UseRequireAuth.

(** ** HomePage (the landing page file) *)

Module HomePage.

(** The [router.push] of its effect. *)
Definition redirect (st : Store.AuthState) : option string :=
  if negb (Store.isLoading st)
  then Some (if Store.isAuthenticated st then "/dashboard" else "/login")
  else None.

End HomePage.

(** ** Vocabulary of the statements *)

(** What the pipeline makes of a backend answer once no interceptor
    steps in. *)
Definition settled (response : Response) (config : Config.t) : Outcome Payload :=
  match response with
  | Ok data => Resolved data
  | Fail status => Rejected (AxiosError.mk status config)
  end.

(** Requests in a log that went out as retries. *)
Definition retries (log : list Config.t) : nat :=
  length (filter (fun q => Config._retry q = true) log).

(** The user interface side of a client: everything the auth store and
    the router show. *)
Definition same_ui (c c' : Client) : Prop :=
  store c' = store c /\ actions c' = actions c
  /\ logoutCalls c' = logoutCalls c /\ location c' = location c.

(** A string made of the characters 0..9 only. *)
Fixpoint all_digits (s : string) : bool :=
  match s with
  | EmptyString => true
  | String ch rest => TwoFactorForm.is_digit ch && all_digits rest
  end.

(** A string that js-cookie writes to [document.cookie] as it is. *)
Fixpoint written_as_is (s : string) : bool :=
  match s with
  | EmptyString => true
  | String ch rest => AuthInitializer.kept ch && written_as_is rest
  end.

(** A string without the character ['='] (character 61). *)
Fixpoint no_equals_sign (s : string) : bool :=
  match s with
  | EmptyString => true
  | String ch rest =>
      negb (Ascii.eqb ch (Ascii.ascii_of_nat 61)) && no_equals_sign rest
  end.

(** The four stored entries are absent. *)
Definition no_tokens (c : Client) : Prop :=
  Cookies_get "access_token" c = None
  /\ Cookies_get "refresh_token" c = None
  /\ localStorage_getItem "access_token" c = None
  /\ localStorage_getItem "refresh_token" c = None.

(** A backend that accepts everything with an empty answer. *)
Definition accepting : Backend := fun _ _ => Ok (OtherData "").

(** ** Sample data used by the examples *)

Definition perm (name : string) : Permission.t :=
  Permission.mk ("p-" +:+ name) name None "users" name "2024-01-01T00:00:00Z".

Definition role (name : string) (perms : list string) : Role.t :=
  Role.mk ("r-" +:+ name) name None false "2024-01-01T00:00:00Z"
          "2024-01-01T00:00:00Z" (perm <$> perms).

Definition person (email : string) (superuser : bool) (rs : list Role.t) : User.t :=
  User.mk ("u-" +:+ email) email None "Ada" "Lovelace" None None "UTC" "en"
          true true superuser false None "2024-01-01T00:00:00Z"
          "2024-01-01T00:00:00Z" rs.

Definition signed_in (u : User.t) : Store.AuthState :=
  Store.login u Store.initial.

Definition rename_patch : PartialUser.t :=
  PartialUser.mk None None None (Some "Grace") None None None None None
                 None None None None None None None None.

Definition nobody : Client :=
  mkClient Store.initial [] ∅ ∅ None [] "/login" 0.

Definition provisional_response : LoginResponse.t :=
  LoginResponse.mk (person "root@x.com" true [role "admin" ["users.delete"]])
    (Token.mk "tmp-access" "tmp-refresh" "bearer" 300)
    "Two-factor authentication required".

Definition credentials (remember : option bool) : LoginRequest.t :=
  LoginRequest.mk "a@x.com" "secret" remember.

Definition bad_code : AxiosError.t :=
  AxiosError.mk (Some 400%Z)
    (Config.mk "POST" "/auth/login/2fa" [("code", "000000")]
               (Some "Bearer tmp-access") false).

Definition session (access refresh : string) : LoginResponse.t :=
  LoginResponse.mk (person "a@x.com" false [role "staff" ["A"; "B"]])
    (Token.mk access refresh "bearer" 1800) "Login successful".

(** A signed-in client whose tokens sit in localStorage. *)
Definition stale : Client :=
  mkClient (signed_in (person "a@x.com" false [role "staff" ["A"; "B"]])) []
           ∅ (<["refresh_token" := "r0"]> (<["access_token" := "a0"]> ∅))
           None [] "/dashboard" 0.

(** The same client without a refresh token. *)
Definition access_only : Client :=
  with_localStorage (<["access_token" := "a0"]> ∅) stale.

(** A backend that grants every refresh with a new pair and refuses
    everything else with 401. *)
Definition rotating : Backend :=
  fun _ config =>
    if SingleFlight.is_refresh config
    then Ok (TokenData (Token.mk "a1" "r1" "bearer" 1800))
    else Fail (Some 401%Z).

(** A backend that refuses everything with 401, the refresh with [status]. *)
Definition refusing (status : Z) : Backend :=
  fun _ config =>
    if SingleFlight.is_refresh config
    then Fail (Some status)
    else Fail (Some 401%Z).

Definition list_users : Config.t := Config.mk "GET" "/users/" [] None false.

(** A backend that grants every refresh with a new pair, serves requests
    that carry the new access token, and refuses the others with 401. *)
Definition renewing : Backend :=
  fun _ config =>
    if SingleFlight.is_refresh config
    then Ok (TokenData (Token.mk "a1" "r1" "bearer" 1800))
    else if bool_decide (Config.Authorization config = Some "Bearer a1")
         then Ok (OtherData "ok")
         else Fail (Some 401%Z).

Definition expired : AxiosError.t :=
  AxiosError.mk (Some 401%Z)
    (Config.mk "GET" "/auth/me" [] (Some "Bearer a0") true).

(* ================================================================== *)
(** * Part II. Properties                                              *)
(* ================================================================== *)

(** ** Permission evaluation *)

Lemma existsb_elem_of {A : Type} (f : A -> bool) (xs : list A) :
  existsb f xs = true <-> exists x, x ∈ xs /\ f x = true.
Proof.
  rewrite existsb_exists. split; intros (x & Hx & Hf); exists x; split;
    try assumption; by apply list_elem_of_In.
Qed.

Lemma forallb_elem_of {A : Type} (f : A -> bool) (xs : list A) :
  forallb f xs = true <-> forall x, x ∈ xs -> f x = true.
Proof.
  rewrite forallb_forall. split; intros H x Hx; apply H; by apply list_elem_of_In.
Qed.

Lemma hasPermission_signed_out (st : Store.AuthState) (name : string) :
  Store.user st = None -> Store.hasPermission st name = false.
Proof. unfold Store.hasPermission. by intros ->. Qed.

Lemma hasPermission_superuser (st : Store.AuthState) (u : User.t) (name : string) :
  Store.user st = Some u -> User.is_superuser u = true ->
  Store.hasPermission st name = true.
Proof. unfold Store.hasPermission. intros -> Hsu. simpl. by rewrite Hsu. Qed.

Lemma hasPermission_ordinary (st : Store.AuthState) (u : User.t) (name : string) :
  Store.user st = Some u -> User.is_superuser u = false ->
  Store.hasPermission st name = true <->
  exists r p, r ∈ User.roles u /\ p ∈ Role.permissions r /\ Permission.name p = name.
Proof.
  unfold Store.hasPermission. intros -> Hsu. simpl. rewrite Hsu.
  rewrite existsb_elem_of. split.
  - intros (r & Hr & Hex). apply existsb_elem_of in Hex as (p & Hp & Heq).
    apply String.eqb_eq in Heq. by exists r, p.
  - intros (r & p & Hr & Hp & Heq). exists r. split; [done|].
    apply existsb_elem_of. exists p. split; [done|]. by apply String.eqb_eq.
Qed.

(** C2.  [hasPermission name] is true exactly when a user is set and that
    user is a superuser or one of the user's roles carries a permission
    called [name]; for a superuser it is true for every name, whatever the
    roles are. *)
Theorem hasPermission_characterisation (st : Store.AuthState) (name : string) :
  (Store.hasPermission st name = true <->
   exists u, Store.user st = Some u /\
     (User.is_superuser u = true \/
      exists r p, r ∈ User.roles u /\ p ∈ Role.permissions r /\
                  Permission.name p = name))
  /\ (forall u, Store.user st = Some u -> User.is_superuser u = true ->
        Store.hasPermission st name = true).
Proof.
  split; [|intros u; apply hasPermission_superuser].
  destruct (Store.user st) as [u|] eqn:Hu.
  - destruct (User.is_superuser u) eqn:Hsu.
    + rewrite (hasPermission_superuser st u name Hu Hsu).
      split; [|done]. intros _. exists u. by split; [|left].
    + rewrite (hasPermission_ordinary st u name Hu Hsu). split.
      * intros H. exists u. by split; [|right].
      * intros (u' & [= <-] & [Hsu'|H]); [congruence|done].
  - rewrite (hasPermission_signed_out st name Hu). split; [done|].
    by intros (u & ? & _).
Qed.

(** The superuser of §8 of the specification: no role at all, any name. *)
Lemma hasPermission_characterisation_witness :
  Store.user (signed_in (person "root@x.com" true [])) =
    Some (person "root@x.com" true [])
  /\ User.is_superuser (person "root@x.com" true []) = true
  /\ Store.hasPermission (signed_in (person "root@x.com" true []))
                         "anything.whatsoever" = true.
Proof.
  split; [reflexivity|]. split; [reflexivity|].
  apply (proj2 (hasPermission_characterisation
                  (signed_in (person "root@x.com" true []))
                  "anything.whatsoever")
               (person "root@x.com" true [])); reflexivity.
Defined.

Lemma hasRole_iff (st : Store.AuthState) (name : string) :
  Store.hasRole st name = true <->
  exists u r, Store.user st = Some u /\ r ∈ User.roles u /\ Role.name r = name.
Proof.
  unfold Store.hasRole. destruct (Store.user st) as [u|]; simpl.
  - rewrite existsb_elem_of. split.
    + intros (r & Hr & Heq). apply String.eqb_eq in Heq. by exists u, r.
    + intros (u' & r & [= <-] & Hr & Heq). exists r. split; [done|].
      by apply String.eqb_eq.
  - split; [done|]. by intros (u & r & ? & _).
Qed.

Lemma includes_elem_of (xs : list string) (x : string) :
  Store.includes xs x = true <-> x ∈ xs.
Proof.
  unfold Store.includes. rewrite existsb_elem_of. split.
  - intros (y & Hy & Heq). apply String.eqb_eq in Heq. by subst.
  - intros Hx. exists x. split; [done|]. by apply String.eqb_eq.
Qed.

Lemma hasAnyRole_iff (st : Store.AuthState) (names : list string) :
  Store.hasAnyRole st names = true <->
  exists n, n ∈ names /\ Store.hasRole st n = true.
Proof.
  unfold Store.hasAnyRole, Store.hasRole.
  destruct (Store.user st) as [u|]; simpl.
  - rewrite existsb_elem_of. split.
    + intros (r & Hr & Hin). apply includes_elem_of in Hin.
      exists (Role.name r). split; [done|]. apply existsb_elem_of.
      exists r. split; [done|]. by apply String.eqb_eq.
    + intros (n & Hn & Hex). apply existsb_elem_of in Hex as (r & Hr & Heq).
      apply String.eqb_eq in Heq. subst n. exists r. split; [done|].
      by apply includes_elem_of.
  - split; [done|]. by intros (n & _ & ?).
Qed.

Lemma hasAnyPermission_iff (st : Store.AuthState) (names : list string) :
  Store.hasAnyPermission st names = true <->
  (exists n, n ∈ names /\ Store.hasPermission st n = true)
  \/ (exists u, Store.user st = Some u /\ User.is_superuser u = true).
Proof.
  unfold Store.hasAnyPermission.
  destruct (Store.user st) as [u|] eqn:Hu; simpl.
  - destruct (User.is_superuser u) eqn:Hsu.
    + split; [|done]. intros _. right. by exists u.
    + rewrite existsb_elem_of. split; [by left|].
      intros [H|(u' & [= <-] & Hsu')]; [done|congruence].
  - split; [done|]. intros [(n & _ & H)|(u & ? & _)]; [|done].
    by rewrite (hasPermission_signed_out st n Hu) in H.
Qed.

Lemma gate_any (f : string -> bool) (names : list string) :
  Nat.eqb (length names) 0 || existsb f names = true <->
  names = [] \/ exists n, n ∈ names /\ f n = true.
Proof.
  destruct names as [|x xs].
  - simpl. split; [by left|done].
  - change (Nat.eqb (length (x :: xs)) 0) with false. rewrite orb_false_l.
    rewrite existsb_elem_of. split; [by right|]. by intros [?|?].
Qed.

Lemma gate_all (f : string -> bool) (names : list string) :
  Nat.eqb (length names) 0 || forallb f names = true <->
  forall n, n ∈ names -> f n = true.
Proof.
  destruct names as [|x xs].
  - simpl. split; [|done]. intros _ n Hn. by apply elem_of_nil in Hn.
  - change (Nat.eqb (length (x :: xs)) 0) with false. rewrite orb_false_l.
    apply forallb_elem_of.
Qed.

(** C7, as the specification words it, fails: a superuser holds none of
    the names of the empty list, and [hasAnyPermission] still answers
    true. *)
Lemma hasAny_counterexample :
  ~ (Store.hasAnyPermission (signed_in (person "root@x.com" true [])) [] = true
     <-> exists n, n ∈ ([] : list string) /\
           Store.hasPermission (signed_in (person "root@x.com" true [])) n = true).
Proof.
  intros [H _]. destruct (H eq_refl) as (n & Hn & _). by apply elem_of_nil in Hn.
Qed.

(** C7, amended.  [hasAnyRole] is true iff some listed role is held;
    [hasAnyPermission] is true iff some listed permission is held or the
    user is a superuser; the gate in any-mode passes iff its list is empty
    or some listed name is held, and in all-mode iff every listed name is
    held.  With roles holding exactly A and B, any-of [A; C] is granted and
    all-of [A; C] is refused. *)
Theorem hasAny_hasAll_semantics (st : Store.AuthState) (names : list string) :
  (Store.hasAnyRole st names = true <->
     exists n, n ∈ names /\ Store.hasRole st n = true)
  /\ (Store.hasAnyPermission st names = true <->
        (exists n, n ∈ names /\ Store.hasPermission st n = true)
        \/ (exists u, Store.user st = Some u /\ User.is_superuser u = true))
  /\ (PermissionGate.hasRequiredPermissions st names false = true <->
        names = [] \/ exists n, n ∈ names /\ Store.hasPermission st n = true)
  /\ (PermissionGate.hasRequiredPermissions st names true = true <->
        forall n, n ∈ names -> Store.hasPermission st n = true)
  /\ (PermissionGate.hasRequiredRoles st names false = true <->
        names = [] \/ exists n, n ∈ names /\ Store.hasRole st n = true)
  /\ (PermissionGate.hasRequiredRoles st names true = true <->
        forall n, n ∈ names -> Store.hasRole st n = true)
  /\ (let ab := signed_in (person "a@x.com" false [role "staff" ["A"; "B"]]) in
      Store.hasAnyPermission ab ["A"; "C"] = true
      /\ PermissionGate.hasRequiredPermissions ab ["A"; "C"] false = true
      /\ PermissionGate.hasRequiredPermissions ab ["A"; "C"] true = false).
Proof.
  split; [apply hasAnyRole_iff|].
  split; [apply hasAnyPermission_iff|].
  split; [apply gate_any|].
  split; [apply gate_all|].
  split; [apply gate_any|].
  split; [apply gate_all|].
  by vm_compute.
Qed.

(** ** The store keeps its two fields in step *)

Lemma step_consistent (st : Store.AuthState) (a : Store.Action) :
  Store.consistent st -> Store.consistent (Store.step st a).
Proof.
  unfold Store.consistent. intros [H1 H2].
  destruct a as [[u|]|b|u| |p]; simpl; try done.
  destruct (Store.user st) as [u|]; [|done].
  split; [done|]. intros _. by apply H2.
Qed.

Lemma run_consistent (acts : list Store.Action) (st : Store.AuthState) :
  Store.consistent st -> Store.consistent (Store.run acts st).
Proof.
  unfold Store.run. revert st.
  induction acts as [|a acts IH]; intros st Hst; [done|].
  simpl. apply IH. by apply step_consistent.
Qed.

(** C10.  From the initial state, whatever actions are dispatched,
    [isAuthenticated] is true exactly when [user] is non-null; each single
    action preserves that; and [updateUser] on a null user leaves the user
    null and the flag as it was. *)
Theorem store_consistency :
  (forall acts, Store.consistent (Store.run acts Store.initial))
  /\ (forall st a, Store.consistent st -> Store.consistent (Store.step st a))
  /\ (forall st updates, Store.user st = None ->
        Store.user (Store.updateUser updates st) = None
        /\ Store.isAuthenticated (Store.updateUser updates st)
           = Store.isAuthenticated st).
Proof.
  split; [|split].
  - intros acts. apply run_consistent. unfold Store.consistent. by simpl.
  - apply step_consistent.
  - intros st updates Hu. unfold Store.updateUser. simpl. by rewrite Hu.
Qed.

Lemma store_consistency_witness :
  Store.consistent Store.initial
  /\ Store.consistent (Store.step Store.initial (Store.UpdateUser rename_patch))
  /\ Store.user (Store.updateUser rename_patch Store.initial) = None.
Proof.
  split; [apply (proj1 store_consistency [])|].
  split.
  - apply (proj1 (proj2 store_consistency)).
    apply (proj1 store_consistency []).
  - apply (proj2 (proj2 store_consistency)). reflexivity.
Defined.

(** ** Second-factor gating *)

Lemma store_setTokens (a r : string) (m : option bool) (c : Client) :
  store (APIClient.setTokens a r m c) = store c.
Proof. unfold APIClient.setTokens. by destruct (default false m). Qed.

Lemma awaiting_signed_out (pg : LoginForm.Page) :
  LoginForm.AwaitingSecondFactor pg ->
  Store.user (store (LoginForm.client pg)) = None
  /\ LoginForm.show2FA (LoginForm.form pg) = true.
Proof.
  induction 1 as [onS rt data response pg Hu Hmsg
                 | onS rt code pg _ [IHu IHs]
                 | onS rt code e pg _ [IHu IHs]].
  - unfold LoginForm.onSubmit, APIClient.login. rewrite Hmsg. simpl.
    by rewrite store_setTokens.
  - by split.
  - unfold LoginForm.handle2FASubmit. simpl. split; [|done].
    destruct (localStorage_getItem _ _) as [t|]; [destruct (_ && _)|]; exact IHu.
Qed.

(** C3.  On every page that waits for the second factor the store still
    has no user, so [hasPermission] refuses every name, whatever identity
    the backend attached to its 'Two-factor authentication required'
    answer. *)
Theorem second_factor_gating (pg : LoginForm.Page) :
  LoginForm.AwaitingSecondFactor pg ->
  Store.user (store (LoginForm.client pg)) = None
  /\ forall name, Store.hasPermission (store (LoginForm.client pg)) name = false.
Proof.
  intros H. destruct (awaiting_signed_out pg H) as [Hu _].
  split; [done|]. intros name. by apply hasPermission_signed_out.
Qed.

(** A superuser's provisional identity, one wrong code later. *)
Lemma second_factor_gating_witness :
  let pg :=
    LoginForm.handle2FASubmit None "/dashboard" "000000" (Rejected bad_code)
      (LoginForm.onSubmit None "/dashboard" (credentials None)
         (Resolved provisional_response)
         (LoginForm.mkPage nobody LoginForm.initial)) in
  LoginForm.AwaitingSecondFactor pg
  /\ Store.hasPermission (store (LoginForm.client pg)) "users.delete" = false.
Proof.
  assert (Hpg : LoginForm.AwaitingSecondFactor
    (LoginForm.handle2FASubmit None "/dashboard" "000000" (Rejected bad_code)
      (LoginForm.onSubmit None "/dashboard" (credentials None)
         (Resolved provisional_response)
         (LoginForm.mkPage nobody LoginForm.initial)))).
  { apply LoginForm.awaiting_retry, LoginForm.awaiting_enter; reflexivity. }
  split; [exact Hpg|].
  apply (proj2 (second_factor_gating _ Hpg)).
Defined.

(** ** Where login stores the credential pair *)

(** C8, as the specification words it, fails: a remembered login followed
    by a session login leaves a pair in each medium. *)
Lemma storage_exclusivity_counterexample :
  let c1 := (APIClient.login (credentials (Some true))
               (Resolved (session "A1" "R1")) nobody).2 in
  let c2 := (APIClient.login (credentials (Some false))
               (Resolved (session "A2" "R2")) c1).2 in
  (Cookies_get "access_token" c2, Cookies_get "refresh_token" c2)
    = (Some "A1", Some "R1")
  /\ (localStorage_getItem "access_token" c2,
      localStorage_getItem "refresh_token" c2)
    = (Some "A2", Some "R2").
Proof. split; reflexivity. Qed.

(** C8, amended.  A successful login writes the pair to the medium that
    [remember_me] selects (cookies when it is true, localStorage when it is
    false or absent) and leaves the other medium as it was; starting from
    empty storage, exactly one medium is populated afterwards. *)
Theorem login_storage_medium
    (cr : LoginRequest.t) (response : LoginResponse.t) (c : Client) :
  let c' := (APIClient.login cr (Resolved response) c).2 in
  let a := Token.access_token (LoginResponse.token response) in
  let r := Token.refresh_token (LoginResponse.token response) in
  (LoginRequest.remember_me cr = Some true ->
     Cookies_get "access_token" c' = Some a
     /\ Cookies_get "refresh_token" c' = Some r
     /\ localStorage c' = localStorage c
     /\ (localStorage c = ∅ -> localStorage c' = ∅))
  /\ (LoginRequest.remember_me cr <> Some true ->
     localStorage_getItem "access_token" c' = Some a
     /\ localStorage_getItem "refresh_token" c' = Some r
     /\ cookies c' = cookies c
     /\ (cookies c = ∅ -> cookies c' = ∅)).
Proof.
  simpl. unfold APIClient.setTokens. split.
  - intros ->. simpl. unfold Cookies_get. simpl.
    rewrite lookup_insert_ne by done. by rewrite !lookup_insert_eq.
  - intros Hm.
    assert (default false (LoginRequest.remember_me cr) = false) as ->.
    { destruct (LoginRequest.remember_me cr) as [[]|]; done. }
    simpl. unfold localStorage_getItem. simpl.
    rewrite lookup_insert_ne by done. by rewrite !lookup_insert_eq.
Qed.

Lemma login_storage_medium_witness :
  let c' := (APIClient.login (credentials None)
               (Resolved (session "A1" "R1")) nobody).2 in
  LoginRequest.remember_me (credentials None) <> Some true
  /\ localStorage_getItem "access_token" c' = Some "A1"
  /\ cookies c' = ∅.
Proof.
  assert (H : LoginRequest.remember_me (credentials None) <> Some true)
    by discriminate.
  split; [exact H|].
  destruct (proj2 (login_storage_medium (credentials None)
                     (session "A1" "R1") nobody) H) as (Ha & _ & _ & He).
  split; [exact Ha|]. apply He. reflexivity.
Defined.

(** ** What a refresh stores *)

Lemma getRefreshToken_frame (c c' : Client) :
  cookies c' !! "refresh_token" = cookies c !! "refresh_token" ->
  localStorage c' !! "refresh_token" = localStorage c !! "refresh_token" ->
  APIClient.getRefreshToken c' = APIClient.getRefreshToken c.
Proof.
  unfold APIClient.getRefreshToken, Cookies_get, localStorage_getItem.
  by intros -> ->.
Qed.

Lemma refresh_then_storage (data : Payload) (c : Client) :
  let c' := (APIClient.refresh_then data c).2 in
  let a := APIClient.String_ (APIClient.access_token_of data) in
  cookies c' !! "refresh_token" = cookies c !! "refresh_token"
  /\ localStorage c' !! "refresh_token" = localStorage c !! "refresh_token"
  /\ (if truthy (Cookies_get "access_token" c)
      then Cookies_get "access_token" c' = Some a
           /\ localStorage c' = localStorage c
      else localStorage_getItem "access_token" c' = Some a
           /\ cookies c' = cookies c).
Proof.
  unfold APIClient.refresh_then. simpl.
  destruct (truthy (Cookies_get "access_token" c)); simpl;
    unfold Cookies_get, localStorage_getItem; simpl;
    rewrite lookup_insert_eq, ?lookup_insert_ne by done; done.
Qed.

Lemma refresh_settle_granted (data : Payload) (c : Client) :
  APIClient.refresh_settle (Resolved data) c
  = (Resolved (APIClient.access_token_of data),
     with_refreshPromise None (APIClient.refresh_then data c).2).
Proof. reflexivity. Qed.

Lemma refresh_settle_rejected (e : AxiosError.t) (c : Client) :
  APIClient.refresh_settle (Rejected e) c
  = (Resolved None, with_refreshPromise None (APIClient.clearTokens c)).
Proof. reflexivity. Qed.

Lemma refresh_settle_pending (c : Client) :
  APIClient.refresh_settle Pending c = (Pending, c).
Proof. reflexivity. Qed.

(** After the handlers of a granted refresh have run, the stored access
    token is the new one. *)
Lemma refresh_then_getAccessToken (t : Token.t) (c : Client) :
  truthy (Some (Token.access_token t)) = true ->
  APIClient.getAccessToken (APIClient.refresh_then (TokenData t) c).2
  = Some (Token.access_token t).
Proof.
  intros Ht. unfold APIClient.getAccessToken, APIClient.refresh_then, js_or.
  simpl. destruct (truthy (Cookies_get "access_token" c)) eqn:Hc; simpl.
  - unfold Cookies_get. simpl. by rewrite lookup_insert_eq, Ht.
  - unfold Cookies_get, localStorage_getItem in *. simpl.
    by rewrite Hc, lookup_insert_eq.
Qed.

(** C4, as the specification words it, fails: the exchange hands out the
    pair (a1, r1), the client stores a1 and keeps the refresh token r0. *)
Lemma rotation_counterexample :
  (fun rc => (rc.1, APIClient.getAccessToken rc.2, APIClient.getRefreshToken rc.2))
    <$> APIClient.refreshAccessToken 1 rotating stale
  = Some (Resolved (Some "a1"), Some "a1", Some "r0").
Proof. reflexivity. Qed.

(** C4, amended.  When the refresh exchange is granted, the stored access
    token is replaced by the new one, in the cookie jar if that held an
    access token and in localStorage otherwise; the other medium and the
    stored refresh token are left as they were; the call resolves to the
    new access token and no refresh is in flight afterwards. *)
Theorem refresh_updates_access_token_only
    (fuel : nat) (backend : Backend) (c : Client) (rt : string) (t : Token.t) :
  refreshPromise c = None ->
  APIClient.getRefreshToken c = Some rt ->
  truthy (Some rt) = true ->
  backend (calls c) (APIClient.request_interceptor c (APIClient.refresh_config rt))
    = Ok (TokenData t) ->
  exists c',
    APIClient.refreshAccessToken (S fuel) backend c
      = Some (Resolved (Some (Token.access_token t)), c')
    /\ APIClient.getRefreshToken c' = APIClient.getRefreshToken c
    /\ cookies c' !! "refresh_token" = cookies c !! "refresh_token"
    /\ localStorage c' !! "refresh_token" = localStorage c !! "refresh_token"
    /\ (if truthy (Cookies_get "access_token" c)
        then Cookies_get "access_token" c' = Some (Token.access_token t)
             /\ localStorage c' = localStorage c
        else localStorage_getItem "access_token" c' = Some (Token.access_token t)
             /\ cookies c' = cookies c)
    /\ refreshPromise c' = None.
Proof.
  intros Hrp Hrt Htr Hb.
  unfold APIClient.refreshAccessToken, APIClient.refreshAccessToken_with,
    APIClient.refresh_begin.
  rewrite Hrp, Hrt, Htr. cbn [APIClient.client mbind option_bind].
  change (APIClient.request_interceptor (with_refreshPromise _ c))
    with (APIClient.request_interceptor c).
  change (calls (with_refreshPromise (Some (length (calls c))) c)) with (calls c).
  rewrite Hb. cbn [mbind option_bind]. rewrite refresh_settle_granted.
  eexists. split; [reflexivity|].
  pose proof (refresh_then_storage (TokenData t) (with_calls
    (calls c ++ [APIClient.request_interceptor c (APIClient.refresh_config rt)])
    (with_refreshPromise (Some (length (calls c))) c))) as (H1 & H2 & H3).
  split; [rewrite <- Hrt; apply getRefreshToken_frame; [exact H1 | exact H2]|].
  split; [exact H1|]. split; [exact H2|]. split; [exact H3 | reflexivity].
Qed.

Lemma refresh_updates_access_token_only_witness :
  exists c',
    APIClient.refreshAccessToken 1 rotating stale = Some (Resolved (Some "a1"), c')
    /\ APIClient.getRefreshToken c' = APIClient.getRefreshToken stale.
Proof.
  destruct (refresh_updates_access_token_only 0 rotating stale "r0"
              (Token.mk "a1" "r1" "bearer" 1800))
    as (c' & Hrun & Hkeep & _); try reflexivity.
  exists c'. split; [exact Hrun | exact Hkeep].
Defined.

(** ** The request pipeline *)

Lemma same_ui_refl (c : Client) : same_ui c c.
Proof. by repeat split. Qed.

Lemma same_ui_trans (c1 c2 c3 : Client) :
  same_ui c1 c2 -> same_ui c2 c3 -> same_ui c1 c3.
Proof.
  unfold same_ui. intros (?&?&?&?) (?&?&?&?). repeat split; congruence.
Qed.

Lemma same_ui_clearTokens (c : Client) : same_ui c (APIClient.clearTokens c).
Proof. by repeat split. Qed.

Lemma same_ui_refresh_then (data : Payload) (c : Client) :
  same_ui c (APIClient.refresh_then data c).2.
Proof.
  unfold APIClient.refresh_then. simpl.
  destruct (truthy (Cookies_get "access_token" c)); by repeat split.
Qed.

Lemma calls_refresh_then (data : Payload) (c : Client) :
  calls (APIClient.refresh_then data c).2 = calls c.
Proof.
  unfold APIClient.refresh_then. simpl.
  by destruct (truthy (Cookies_get "access_token" c)).
Qed.

(** The promise of [refreshAccessToken] never rejects: its own [.catch]
    turns every rejection into null. *)
Lemma refresh_settle_never_rejects (r : Outcome Payload) (c : Client)
    (e : AxiosError.t) :
  (APIClient.refresh_settle r c).1 <> Rejected e.
Proof. by destruct r. Qed.

Lemma same_ui_refresh_settle (r : Outcome Payload) (c : Client) :
  same_ui c (APIClient.refresh_settle r c).2.
Proof.
  destruct r as [data|e|].
  - rewrite refresh_settle_granted. simpl.
    destruct (same_ui_refresh_then data c) as (?&?&?&?). by repeat split.
  - by repeat split.
  - by repeat split.
Qed.

Lemma calls_refresh_settle (r : Outcome Payload) (c : Client) :
  calls (APIClient.refresh_settle r c).2 = calls c.
Proof.
  destruct r as [data|e|]; [|done..].
  rewrite refresh_settle_granted. simpl. apply calls_refresh_then.
Qed.

Lemma request_interceptor_fields (c : Client) (config : Config.t) :
  Config.method (APIClient.request_interceptor c config) = Config.method config
  /\ Config.url (APIClient.request_interceptor c config) = Config.url config
  /\ Config.data (APIClient.request_interceptor c config) = Config.data config
  /\ Config._retry (APIClient.request_interceptor c config) = Config._retry config.
Proof.
  unfold APIClient.request_interceptor.
  destruct (APIClient.getAccessToken c) as [t|]; [destruct (truthy _)|]; done.
Qed.

Lemma request_interceptor_attaches (c : Client) (config : Config.t) (t : string) :
  APIClient.getAccessToken c = Some t -> truthy (Some t) = true ->
  APIClient.request_interceptor c config
  = Config.mk (Config.method config) (Config.url config) (Config.data config)
              (Some ("Bearer " +:+ t)) (Config._retry config).
Proof. unfold APIClient.request_interceptor. by intros -> ->. Qed.

Lemma client_unfold (fuel : nat) (backend : Backend) (c : Client)
    (config : Config.t) :
  APIClient.client (S fuel) backend c config =
  let config := APIClient.request_interceptor c config in
  let c1 := with_calls (calls c ++ [config]) c in
  match backend (calls c) config with
  | Ok data => Some (Resolved data, c1)
  | Fail status =>
      if bool_decide (status = Some 401%Z) && negb (Config._retry config)
      then
        '(newToken, c2) ← APIClient.refreshAccessToken fuel backend c1;
        match newToken with
        | Resolved (Some token) =>
            if truthy (Some token)
            then APIClient.client fuel backend c2
                   (Config.set_Authorization (Some ("Bearer " +:+ token))
                      (Config.set_retry true config))
            else Some (Rejected (AxiosError.mk status (Config.set_retry true config)),
                       c2)
        | Resolved None =>
            Some (Rejected (AxiosError.mk status (Config.set_retry true config)), c2)
        | Rejected refreshError =>
            Some (Rejected refreshError,
                  with_location "/login"
                    (with_logoutCalls (S (logoutCalls c2)) c2))
        | Pending => Some (Pending, c2)
        end
      else Some (Rejected (AxiosError.mk status config), c1)
  end.
Proof. reflexivity. Qed.

(** A request that has been retried once goes through the pipeline
    without any interception. *)
Lemma client_retried (fuel : nat) (backend : Backend) (c : Client)
    (config : Config.t) :
  Config._retry config = true ->
  APIClient.client (S fuel) backend c config =
  Some (settled (backend (calls c) (APIClient.request_interceptor c config))
                (APIClient.request_interceptor c config),
        with_calls (calls c ++ [APIClient.request_interceptor c config]) c).
Proof.
  intros Hr. rewrite client_unfold. cbv zeta.
  destruct (request_interceptor_fields c config) as (_ & _ & _ & ->).
  rewrite Hr. destruct (backend _ _) as [data|status]; [done|].
  simpl negb. by rewrite andb_false_r.
Qed.

(** While a refresh is in flight, a 401 makes the caller wait for it. *)
Lemma client_in_flight (fuel : nat) (backend : Backend) (c : Client)
    (config : Config.t) (p : Promise) :
  refreshPromise c = Some p ->
  APIClient.client (S fuel) backend c config =
  let config := APIClient.request_interceptor c config in
  Some (match backend (calls c) config with
        | Ok data => Resolved data
        | Fail status =>
            if bool_decide (status = Some 401%Z) && negb (Config._retry config)
            then Pending
            else Rejected (AxiosError.mk status config)
        end,
        with_calls (calls c ++ [config]) c).
Proof.
  intros Hp. rewrite client_unfold. cbv zeta.
  destruct (backend _ _) as [data|status]; [done|].
  destruct (_ && _); [|done].
  unfold APIClient.refreshAccessToken, APIClient.refreshAccessToken_with,
    APIClient.refresh_begin.
  change (refreshPromise (with_calls _ c)) with (refreshPromise c).
  by rewrite Hp.
Qed.

(** The refresh, run from a state with none in flight, in closed form. *)
Lemma refreshAccessToken_idle (fuel : nat) (backend : Backend) (c : Client) :
  refreshPromise c = None ->
  APIClient.refreshAccessToken (S fuel) backend c =
  match APIClient.getRefreshToken c with
  | Some rt =>
      if truthy (Some rt)
      then
        let config := APIClient.request_interceptor c (APIClient.refresh_config rt) in
        let c1 := with_calls (calls c ++ [config])
                    (with_refreshPromise (Some (length (calls c))) c) in
        Some (APIClient.refresh_settle
                (match backend (calls c) config with
                 | Ok data => Resolved data
                 | Fail status =>
                     if bool_decide (status = Some 401%Z)
                     then Pending
                     else Rejected (AxiosError.mk status config)
                 end) c1)
      else Some (Resolved None, c)
  | None => Some (Resolved None, c)
  end.
Proof.
  intros Hp.
  unfold APIClient.refreshAccessToken, APIClient.refreshAccessToken_with,
    APIClient.refresh_begin.
  rewrite Hp. destruct (APIClient.getRefreshToken c) as [rt|]; [|done].
  destruct (truthy (Some rt)); [|done].
  rewrite (client_in_flight fuel backend _ _ (length (calls c))) by done.
  cbv zeta. cbn [mbind option_bind].
  change (APIClient.request_interceptor (with_refreshPromise _ c))
    with (APIClient.request_interceptor c).
  change (calls (with_refreshPromise (Some (length (calls c))) c)) with (calls c).
  destruct (request_interceptor_fields c (APIClient.refresh_config rt))
    as (_ & _ & _ & Hr).
  rewrite Hr. simpl negb. destruct (backend _ _) as [data|status]; [done|].
  by rewrite andb_true_r.
Qed.

Lemma retries_app (xs ys : list Config.t) :
  retries (xs ++ ys) = retries xs + retries ys.
Proof. unfold retries. by rewrite filter_app, length_app. Qed.

Lemma retries_one (x : Config.t) :
  retries [x] = if Config._retry x then 1 else 0.
Proof. unfold retries. by destruct x as [? ? ? ? []]. Qed.

(** [refreshAccessToken] always returns, never by rejection, leaves the
    store and the router alone, and sends at most one request, which is
    not a retry. *)
Lemma refreshAccessToken_total (fuel : nat) (backend : Backend) (c : Client) :
  exists r c' new,
    APIClient.refreshAccessToken (S fuel) backend c = Some (r, c')
    /\ (forall e, r <> Rejected e)
    /\ same_ui c c'
    /\ calls c' = calls c ++ new
    /\ length new <= 1
    /\ retries new = 0.
Proof.
  destruct (refreshPromise c) as [p|] eqn:Hp.
  - exists Pending, c, [].
    unfold APIClient.refreshAccessToken, APIClient.refreshAccessToken_with,
      APIClient.refresh_begin. rewrite Hp, app_nil_r.
    repeat split; try done. simpl. lia.
  - rewrite (refreshAccessToken_idle fuel backend c Hp).
    assert (Hnone : exists r c' new,
      Some (Resolved None, c) = Some (r, c')
      /\ (forall e, r <> Rejected (A := option string) e)
      /\ same_ui c c' /\ calls c' = calls c ++ new
      /\ length new <= 1 /\ retries new = 0).
    { exists (Resolved None), c, []. rewrite app_nil_r.
      repeat split; try done. simpl. lia. }
    destruct (APIClient.getRefreshToken c) as [rt|]; [|exact Hnone].
    destruct (truthy (Some rt)); [|exact Hnone].
    cbv zeta.
    set (config := APIClient.request_interceptor c (APIClient.refresh_config rt)).
    set (c1 := with_calls _ _).
    match goal with |- context [APIClient.refresh_settle ?x c1] => set (r := x) end.
    exists (APIClient.refresh_settle r c1).1, (APIClient.refresh_settle r c1).2,
      [config].
    split; [by destruct (APIClient.refresh_settle r c1)|].
    split; [intros e; apply refresh_settle_never_rejects|].
    split.
    { apply (same_ui_trans c c1); [by repeat split|apply same_ui_refresh_settle]. }
    split; [by rewrite calls_refresh_settle|].
    split; [done|]. rewrite retries_one. subst config.
    by destruct (request_interceptor_fields c (APIClient.refresh_config rt))
      as (_ & _ & _ & ->).
Qed.

(** The pipeline always returns; it sends at most three requests, at most
    one of them a retry; it never touches the store, never calls logout and
    never navigates. *)
Lemma client_total (fuel : nat) (backend : Backend) (c : Client)
    (config : Config.t) :
  exists r c' new,
    APIClient.client (S (S fuel)) backend c config = Some (r, c')
    /\ calls c' = calls c ++ new
    /\ length new <= 3
    /\ retries new <= 1
    /\ same_ui c c'.
Proof.
  rewrite client_unfold. cbv zeta.
  set (config1 := APIClient.request_interceptor c config).
  set (c1 := with_calls (calls c ++ [config1]) c).
  assert (Hone : forall r : Outcome Payload, exists r' c' new,
    Some (r, c1) = Some (r', c') /\ calls c' = calls c ++ new
    /\ length new <= 3 /\ retries new <= 1 /\ same_ui c c').
  { intros r. exists r, c1, [config1]. split; [done|]. split; [done|].
    split; [simpl; lia|]. split; [|by repeat split].
    rewrite retries_one. destruct (Config._retry config1); lia. }
  destruct (backend (calls c) config1) as [data|status]; [apply Hone|].
  destruct (bool_decide (status = Some 401%Z) && negb (Config._retry config1))
    eqn:Hcond; [|apply Hone].
  apply andb_true_iff in Hcond as [_ Hfresh]. apply negb_true_iff in Hfresh.
  destruct (refreshAccessToken_total fuel backend c1)
    as (r2 & c2 & new2 & -> & Hnr & Hui & Hcalls & Hlen & Hret).
  cbn [mbind option_bind].
  assert (Htwo : forall r : Outcome Payload, exists r' c' new,
    Some (r, c2) = Some (r', c') /\ calls c' = calls c ++ new
    /\ length new <= 3 /\ retries new <= 1 /\ same_ui c c').
  { intros r. exists r, c2, ([config1] ++ new2). split; [done|].
    split; [by rewrite Hcalls, app_assoc|].
    split; [rewrite length_app; simpl; lia|].
    split; [rewrite retries_app, retries_one, Hfresh; simpl; lia|].
    apply (same_ui_trans c c1); [by repeat split|done]. }
  destruct r2 as [[token|]|e|]; [|apply Htwo|by destruct (Hnr e)|apply Htwo].
  destruct (truthy (Some token)); [|apply Htwo].
  rewrite client_retried by done.
  eexists _, _, ([config1] ++ new2 ++ [_]). split; [reflexivity|].
  split; [simpl calls; rewrite Hcalls; subst c1; simpl calls;
          rewrite <- !app_assoc; reflexivity|].
  split; [rewrite !length_app; simpl; lia|].
  split.
  - rewrite !retries_app, !retries_one, Hfresh, Hret.
    destruct (Config._retry (APIClient.request_interceptor c2 _)); simpl; lia.
  - apply (same_ui_trans c c1); [by repeat split|].
    apply (same_ui_trans c1 c2); [done|by repeat split].
Qed.

(** A first 401, a granted refresh, one retry under the new token: the
    answer to the retry is what the caller gets. *)
Lemma client_refresh_then_retry (fuel : nat) (backend : Backend) (c : Client)
    (config : Config.t) (rt : string) (t : Token.t) :
  let config1 := APIClient.request_interceptor c config in
  let rconfig := APIClient.request_interceptor c (APIClient.refresh_config rt) in
  let retry :=
    Config.mk (Config.method config) (Config.url config) (Config.data config)
              (Some ("Bearer " +:+ Token.access_token t)) true in
  refreshPromise c = None ->
  Config._retry config = false ->
  backend (calls c) config1 = Fail (Some 401%Z) ->
  APIClient.getRefreshToken c = Some rt ->
  truthy (Some rt) = true ->
  backend (calls c ++ [config1]) rconfig = Ok (TokenData t) ->
  truthy (Some (Token.access_token t)) = true ->
  exists c',
    APIClient.client (S (S fuel)) backend c config
      = Some (settled (backend (calls c ++ [config1; rconfig]) retry) retry, c')
    /\ calls c' = calls c ++ [config1; rconfig; retry]
    /\ APIClient.getAccessToken c' = Some (Token.access_token t).
Proof.
  intros config1 rconfig retry Hp Hfresh H401 Hrt Hrtt Hgrant Htt.
  destruct (request_interceptor_fields c config) as (Hm & Hu & Hd & Hr).
  fold config1 in Hm, Hu, Hd, Hr.
  rewrite client_unfold. cbv zeta. fold config1. rewrite H401.
  rewrite bool_decide_eq_true_2 by done. rewrite Hr, Hfresh. simpl negb.
  rewrite andb_true_r.
  rewrite refreshAccessToken_idle by exact Hp.
  change (APIClient.getRefreshToken (with_calls (calls c ++ [config1]) c))
    with (APIClient.getRefreshToken c).
  rewrite Hrt, Hrtt. cbv zeta.
  change (APIClient.request_interceptor (with_calls (calls c ++ [config1]) c))
    with (APIClient.request_interceptor c).
  fold rconfig.
  change (calls (with_calls (calls c ++ [config1]) c)) with (calls c ++ [config1]).
  rewrite Hgrant, refresh_settle_granted.
  cbn [mbind option_bind APIClient.access_token_of]. rewrite Htt.
  rewrite client_retried by done.
  set (c1 := with_calls ((calls c ++ [config1]) ++ [rconfig]) _).
  set (c2 := with_refreshPromise None _).
  assert (Hacc : APIClient.getAccessToken c2 = Some (Token.access_token t))
    by exact (refresh_then_getAccessToken t c1 Htt).
  rewrite (request_interceptor_attaches c2 _ (Token.access_token t) Hacc Htt).
  simpl Config.method. simpl Config.url. simpl Config.data. simpl Config._retry.
  rewrite Hm, Hu, Hd. fold retry.
  assert (Hcalls : calls c2 = calls c ++ [config1; rconfig]).
  { transitivity (calls (APIClient.refresh_then (TokenData t) c1).2);
      [reflexivity|].
    rewrite calls_refresh_then. unfold c1. simpl calls.
    by rewrite <- app_assoc. }
  rewrite Hcalls. eexists. split; [reflexivity|].
  split; [|exact Hacc]. simpl calls. by rewrite <- app_assoc.
Qed.

(** C5, as the specification words it, fails twice over.  With no refresh
    token stored, a first 401 goes to the caller without any retry (one
    request in all).  And when the retry of a signed-in client is refused
    again, the caller gets the 401, but logout was never called, the
    renewed access token is still stored and the store still shows the user
    as authenticated. *)
Lemma retry_once_counterexample :
  (fun rc => (rc.1, length (calls rc.2)))
    <$> APIClient.client 2 rotating access_only list_users
  = Some (Rejected (AxiosError.mk (Some 401%Z)
                      (Config.mk "GET" "/users/" [] (Some "Bearer a0") true)),
          1)
  /\ (fun rc => (rc.1, logoutCalls rc.2, APIClient.getAccessToken rc.2,
                 APIClient.getRefreshToken rc.2,
                 Store.isAuthenticated (store rc.2), length (calls rc.2)))
       <$> APIClient.client 2 rotating stale list_users
     = Some (Rejected (AxiosError.mk (Some 401%Z)
                         (Config.mk "GET" "/users/" [] (Some "Bearer a1") true)),
             0, Some "a1", Some "r0", true, 3).
Proof. split; reflexivity. Qed.

(** The pipeline is [arrive], the refresh, and [resume]. *)
Lemma client_arrive_resume (fuel : nat) (backend : Backend) (c : Client)
    (config : Config.t) :
  APIClient.client (S fuel) backend c config =
  match APIClient.arrive backend c config with
  | (APIClient.Finished r, c1) => Some (r, c1)
  | (APIClient.AwaitsRefresh status originalRequest, c1) =>
      '(newToken, c2) ← APIClient.refreshAccessToken fuel backend c1;
      APIClient.resume fuel backend c2 status originalRequest newToken
  end.
Proof.
  rewrite client_unfold. unfold APIClient.arrive. cbv zeta.
  destruct (backend _ _) as [data|status]; [done|].
  by destruct (_ && _).
Qed.

(** An interceptor that resumes with a token sends the marked request once
    more, under the stored token, and hands its answer to the caller. *)
Lemma resume_with_token (fuel : nat) (backend : Backend) (c : Client)
    (status : option Z) (originalRequest : Config.t) (token : string) :
  truthy (Some token) = true ->
  Config._retry originalRequest = true ->
  APIClient.getAccessToken c = Some token ->
  let retry :=
    Config.mk (Config.method originalRequest) (Config.url originalRequest)
              (Config.data originalRequest) (Some ("Bearer " +:+ token)) true in
  APIClient.resume (S fuel) backend c status originalRequest
                   (Resolved (Some token))
  = Some (settled (backend (calls c) retry) retry,
          with_calls (calls c ++ [retry]) c).
Proof.
  intros Ht Hr Hacc retry. unfold APIClient.resume. rewrite Ht.
  rewrite client_retried by done.
  rewrite (request_interceptor_attaches c _ token Hacc Ht).
  simpl Config.method. simpl Config.url. simpl Config.data. simpl Config._retry.
  by rewrite Hr.
Qed.

(** However the awaited refresh has settled, an interceptor that resumes
    for a marked request returns after at most one more request. *)
Lemma resume_total (fuel : nat) (backend : Backend) (c : Client)
    (status : option Z) (originalRequest : Config.t)
    (newToken : Outcome (option string)) :
  Config._retry originalRequest = true ->
  exists r c' new,
    APIClient.resume (S fuel) backend c status originalRequest newToken
      = Some (r, c')
    /\ calls c' = calls c ++ new
    /\ length new <= 1.
Proof.
  intros Hr. unfold APIClient.resume.
  assert (Hnone : forall (r : Outcome Payload) (c' : Client),
            calls c' = calls c ->
            exists r' c'' new,
              Some (r, c') = Some (r', c'')
              /\ calls c'' = calls c ++ new /\ length new <= 1).
  { intros r c' Hc. exists r, c', []. rewrite app_nil_r. simpl. auto with lia. }
  destruct newToken as [[token|]|e|]; try (apply Hnone; reflexivity).
  destruct (truthy (Some token)); [|apply Hnone; reflexivity].
  rewrite client_retried by done.
  eexists _, _, [_]. split; [reflexivity|]. split; [reflexivity|]. simpl. lia.
Qed.

(** Two requests that overlap.  Both go out under the expired token and
    are answered 401.  The interceptor of the first starts the refresh, the
    interceptor of the second is handed its promise.  The exchange is
    granted, and each request is then sent once more under the new token
    and served.  Five requests have reached the backend: one refresh and
    two retries among them. *)
Lemma two_overlapping_requests :
  let first := APIClient.arrive renewing stale list_users in
  let started := SingleFlight.refresh_call first.2 in
  let second := APIClient.arrive renewing started.2 list_users in
  let joined := APIClient.refresh_begin second.2 in
  let shared :=
    APIClient.refresh_settle
      (settled (renewing (calls first.2)
                  (Config.mk "POST" "/auth/refresh" [("refresh_token", "r0")]
                             (Some "Bearer a0") false))
               list_users)
      joined.2 in
  let marked := Config.mk "GET" "/users/" [] (Some "Bearer a0") true in
  (first.1, started.1, second.1, joined.1, shared.1)
  = (APIClient.AwaitsRefresh (Some 401%Z) marked,
     APIClient.Issued 1 (APIClient.refresh_config "r0"),
     APIClient.AwaitsRefresh (Some 401%Z) marked,
     APIClient.Shared 1,
     Resolved (Some "a1"))
  /\ ('(r1, c1) ← APIClient.resume 1 renewing shared.2 (Some 401%Z) marked
                     shared.1;
      '(r2, c2) ← APIClient.resume 1 renewing c1 (Some 401%Z) marked shared.1;
      Some (r1, r2, length (calls c2), SingleFlight.exchanges c2,
            retries (calls c2)))
     = Some (Resolved (OtherData "ok"), Resolved (OtherData "ok"), 5, 1, 2).
Proof. split; vm_compute; reflexivity. Qed.

(** C5, amended.  The pipeline always returns, sends at most three
    requests and at most one retry, whatever the backend does.  A request
    that was not yet retried and meets a 401 is re-sent exactly once,
    marked as retried and carrying the new token, when the refresh yields
    one, whether the request runs the refresh itself (none was in flight)
    or is handed the promise of a refresh another request has in flight
    and resumes, once that one has settled, in a state that holds the new
    token (the state the settlement leaves, or a later one); whatever the backend answers to
    the retry, a second 401 included, goes to the caller and nothing more
    is sent.  A shared refresh that was refused gives the caller the first
    401 without a retry, and however the shared refresh settles the
    resumed request sends at most one request more.  The last part joins
    the two halves used for the shared refresh to the pipeline itself. *)
Theorem retry_once (fuel : nat) (backend : Backend) (c : Client)
    (config : Config.t) :
  (exists r c' new,
     APIClient.client (S (S fuel)) backend c config = Some (r, c')
     /\ calls c' = calls c ++ new
     /\ length new <= 3
     /\ retries new <= 1)
  /\ (forall rt t,
        let config1 := APIClient.request_interceptor c config in
        let rconfig :=
          APIClient.request_interceptor c (APIClient.refresh_config rt) in
        let retry :=
          Config.mk (Config.method config) (Config.url config)
                    (Config.data config)
                    (Some ("Bearer " +:+ Token.access_token t)) true in
        refreshPromise c = None ->
        Config._retry config = false ->
        backend (calls c) config1 = Fail (Some 401%Z) ->
        APIClient.getRefreshToken c = Some rt ->
        truthy (Some rt) = true ->
        backend (calls c ++ [config1]) rconfig = Ok (TokenData t) ->
        truthy (Some (Token.access_token t)) = true ->
        exists c',
          APIClient.client (S (S fuel)) backend c config
            = Some (settled (backend (calls c ++ [config1; rconfig]) retry) retry,
                    c')
          /\ calls c' = calls c ++ [config1; rconfig; retry]
          /\ APIClient.getAccessToken c' = Some (Token.access_token t))
  /\ (forall p,
        let config1 := APIClient.request_interceptor c config in
        let c1 := with_calls (calls c ++ [config1]) c in
        let originalRequest := Config.set_retry true config1 in
        refreshPromise c = Some p ->
        Config._retry config = false ->
        backend (calls c) config1 = Fail (Some 401%Z) ->
        APIClient.arrive backend c config
          = (APIClient.AwaitsRefresh (Some 401%Z) originalRequest, c1)
        /\ APIClient.refresh_begin c1 = (APIClient.Shared p, c1)
        /\ (forall cs t,
              let shared :=
                APIClient.refresh_settle (Resolved (TokenData t)) cs in
              truthy (Some (Token.access_token t)) = true ->
              shared.1 = Resolved (Some (Token.access_token t))
              /\ APIClient.getAccessToken shared.2
                 = Some (Token.access_token t)
              /\ refreshPromise shared.2 = None
              /\ calls shared.2 = calls cs)
        /\ (forall c2 token,
              let retry :=
                Config.mk (Config.method config) (Config.url config)
                          (Config.data config)
                          (Some ("Bearer " +:+ token)) true in
              truthy (Some token) = true ->
              APIClient.getAccessToken c2 = Some token ->
              APIClient.resume (S fuel) backend c2 (Some 401%Z)
                               originalRequest (Resolved (Some token))
              = Some (settled (backend (calls c2) retry) retry,
                      with_calls (calls c2 ++ [retry]) c2))
        /\ (forall cs e,
              let shared := APIClient.refresh_settle (Rejected e) cs in
              APIClient.resume (S fuel) backend shared.2 (Some 401%Z)
                               originalRequest shared.1
              = Some (Rejected (AxiosError.mk (Some 401%Z) originalRequest),
                      shared.2))
        /\ (forall c2 newToken,
              exists r c' new,
                APIClient.resume (S fuel) backend c2 (Some 401%Z)
                                 originalRequest newToken = Some (r, c')
                /\ calls c' = calls c2 ++ new
                /\ length new <= 1))
  /\ APIClient.client (S (S fuel)) backend c config
     = match APIClient.arrive backend c config with
       | (APIClient.Finished r, c1) => Some (r, c1)
       | (APIClient.AwaitsRefresh status originalRequest, c1) =>
           '(newToken, c2) ← APIClient.refreshAccessToken (S fuel) backend c1;
           APIClient.resume (S fuel) backend c2 status originalRequest newToken
       end.
Proof.
  split; [|split; [|split]].
  - destruct (client_total fuel backend c config)
      as (r & c' & new & H1 & H2 & H3 & H4 & _).
    by exists r, c', new.
  - intros rt t. apply client_refresh_then_retry.
  - intros p config1 c1 originalRequest Hp Hfresh H401.
    destruct (request_interceptor_fields c config) as (Hm & Hu & Hd & Hr).
    fold config1 in Hm, Hu, Hd, Hr.
    split; [|split; [|split; [|split; [|split]]]].
    + unfold APIClient.arrive. cbv zeta. fold config1. rewrite H401.
      rewrite bool_decide_eq_true_2 by done. by rewrite Hr, Hfresh.
    + unfold APIClient.refresh_begin.
      change (refreshPromise c1) with (refreshPromise c). by rewrite Hp.
    + intros cs t shared Ht. subst shared.
      rewrite refresh_settle_granted. cbn [fst snd APIClient.access_token_of].
      split; [done|].
      split; [exact (refresh_then_getAccessToken t cs Ht)|].
      split; [done|]. exact (calls_refresh_then (TokenData t) cs).
    + intros c2 token retry Ht Hacc.
      rewrite (resume_with_token fuel backend c2 (Some 401%Z) originalRequest
                 token Ht eq_refl Hacc).
      cbv zeta. subst originalRequest.
      simpl Config.method. simpl Config.url. simpl Config.data.
      by rewrite Hm, Hu, Hd.
    + intros cs e shared. subst shared. by rewrite refresh_settle_rejected.
    + intros c2 newToken. by apply resume_total.
  - apply client_arrive_resume.
Qed.

Lemma retry_once_witness :
  (exists c',
     APIClient.client 2 rotating stale list_users
       = Some (Rejected (AxiosError.mk (Some 401%Z)
                 (Config.mk "GET" "/users/" [] (Some "Bearer a1") true)), c')
     /\ length (calls c') = 3)
  /\ (let waiting := with_refreshPromise (Some 0) stale in
      let token := Token.mk "a1" "r1" "bearer" 1800 in
      let retry := Config.mk "GET" "/users/" [] (Some "Bearer a1") true in
      exists c1 originalRequest,
        APIClient.arrive rotating waiting list_users
          = (APIClient.AwaitsRefresh (Some 401%Z) originalRequest, c1)
        /\ APIClient.refresh_begin c1 = (APIClient.Shared 0, c1)
        /\ APIClient.resume 1 rotating
             (APIClient.refresh_settle (Resolved (TokenData token)) c1).2
             (Some 401%Z) originalRequest (Resolved (Some "a1"))
           = Some (Rejected (AxiosError.mk (Some 401%Z) retry),
                   with_calls (calls c1 ++ [retry])
                     (APIClient.refresh_settle (Resolved (TokenData token)) c1).2)).
Proof.
  split.
  - destruct (proj1 (proj2 (retry_once 0 rotating stale list_users)) "r0"
                (Token.mk "a1" "r1" "bearer" 1800))
      as (c' & Hrun & Hcalls & _); try reflexivity.
    exists c'. split; [exact Hrun|]. rewrite Hcalls. reflexivity.
  - cbv zeta.
    destruct (proj1 (proj2 (proj2 (retry_once 0 rotating
                (with_refreshPromise (Some 0) stale) list_users)))
                0 eq_refl eq_refl eq_refl)
      as (Harrive & Hbegin & _ & Hresume & _).
    eexists _, _. split; [exact Harrive|]. split; [exact Hbegin|].
    refine (Hresume _ "a1" _ _); reflexivity.
Defined.

(** ** A refresh that the backend refuses *)

(** C6 at two inputs.  The backend refuses the refresh with 403: the
    stored tokens are erased and the caller gets the original 401, but
    logout is not called, nothing navigates, and the store still holds the
    user as authenticated.  The backend refuses it with 401: the call never
    settles, the tokens stay stored and the refresh stays in flight. *)
Lemma refresh_refused_keeps_store_authenticated :
  (fun rc => (rc.1, APIClient.getAccessToken rc.2, APIClient.getRefreshToken rc.2,
              Store.isAuthenticated (store rc.2), logoutCalls rc.2,
              location rc.2, refreshPromise rc.2))
    <$> APIClient.client 2 (refusing 403) stale list_users
  = Some (Rejected (AxiosError.mk (Some 401%Z)
                      (Config.mk "GET" "/users/" [] (Some "Bearer a0") true)),
          None, None, true, 0, "/dashboard", None)
  /\ (fun rc => (rc.1, APIClient.getAccessToken rc.2,
                 APIClient.getRefreshToken rc.2,
                 Store.isAuthenticated (store rc.2), logoutCalls rc.2,
                 location rc.2, refreshPromise rc.2))
       <$> APIClient.client 2 (refusing 401) stale list_users
     = Some (Pending, Some "a0", Some "r0", true, 0, "/dashboard", Some 1).
Proof. split; reflexivity. Qed.

(** ** Single-flight refresh *)

Lemma refresh_call_shared (c : Client) (p : Promise) :
  refreshPromise c = Some p ->
  SingleFlight.refresh_call c = (APIClient.Shared p, c).
Proof.
  intros Hp. unfold SingleFlight.refresh_call, APIClient.refresh_begin.
  by rewrite Hp.
Qed.

Lemma exchanges_snoc (c : Client) (config : Config.t) :
  SingleFlight.exchanges (with_calls (calls c ++ [config]) c)
  = SingleFlight.exchanges c + (if SingleFlight.is_refresh config then 1 else 0).
Proof.
  unfold SingleFlight.exchanges. simpl calls. rewrite filter_app, length_app.
  f_equal. rewrite filter_cons, filter_nil.
  destruct (SingleFlight.is_refresh config) eqn:E.
  - by rewrite decide_True.
  - by rewrite decide_False.
Qed.

Lemma is_refresh_exchange (c : Client) (rt : string) :
  SingleFlight.is_refresh
    (APIClient.request_interceptor c (APIClient.refresh_config rt)) = true.
Proof.
  unfold SingleFlight.is_refresh.
  by destruct (request_interceptor_fields c (APIClient.refresh_config rt))
    as (_ & -> & _).
Qed.

Lemma refresh_call_issues (c : Client) (rt : string) :
  refreshPromise c = None ->
  APIClient.getRefreshToken c = Some rt ->
  truthy (Some rt) = true ->
  exists c',
    SingleFlight.refresh_call c
      = (APIClient.Issued (length (calls c)) (APIClient.refresh_config rt), c')
    /\ refreshPromise c' = Some (length (calls c))
    /\ SingleFlight.exchanges c' = S (SingleFlight.exchanges c).
Proof.
  intros Hp Hrt Ht. unfold SingleFlight.refresh_call, APIClient.refresh_begin.
  rewrite Hp, Hrt, Ht. eexists. split; [reflexivity|]. split; [done|].
  etrans; [apply (exchanges_snoc (with_refreshPromise _ c))|].
  change (APIClient.request_interceptor (with_refreshPromise _ c))
    with (APIClient.request_interceptor c).
  rewrite is_refresh_exchange. unfold SingleFlight.exchanges. simpl calls. lia.
Qed.

Lemma run_calls_shared (n : nat) (c : Client) (p : Promise) :
  refreshPromise c = Some p ->
  SingleFlight.run (replicate n SingleFlight.CallRefresh) c
  = (replicate n (APIClient.Shared p), c).
Proof.
  intros Hp. induction n as [|n IH]; [done|].
  simpl. rewrite (refresh_call_shared c p Hp). by rewrite IH.
Qed.

Lemma event_step_in_flight (e : SingleFlight.Event) (c : Client) :
  let c' := (SingleFlight.event_step e c).2 in
  SingleFlight.exchanges c' + SingleFlight.in_flight c
  <= SingleFlight.exchanges c + SingleFlight.in_flight c'
     + SingleFlight.settles [e].
Proof.
  destruct e as [|r]; simpl.
  - destruct (refreshPromise c) as [p|] eqn:Hp.
    + rewrite (refresh_call_shared c p Hp). simpl. lia.
    + destruct (APIClient.getRefreshToken c) as [rt|] eqn:Hrt.
      * destruct (truthy (Some rt)) eqn:Ht.
        -- destruct (refresh_call_issues c rt Hp Hrt Ht) as (c' & -> & Hp' & Hex).
           simpl. unfold SingleFlight.in_flight. rewrite Hp, Hp', Hex. simpl. lia.
        -- unfold SingleFlight.refresh_call, APIClient.refresh_begin.
           rewrite Hp, Hrt, Ht. simpl. lia.
      * unfold SingleFlight.refresh_call, APIClient.refresh_begin.
        rewrite Hp, Hrt. simpl. lia.
  - destruct (refreshPromise c) as [p|] eqn:Hp; simpl; [|lia].
    unfold SingleFlight.exchanges. rewrite calls_refresh_settle.
    unfold SingleFlight.in_flight at 1. rewrite Hp.
    unfold SingleFlight.settles. simpl.
    destruct r as [data|e|].
    + rewrite refresh_settle_granted. unfold SingleFlight.in_flight. simpl. lia.
    + rewrite refresh_settle_rejected. unfold SingleFlight.in_flight. simpl. lia.
    + rewrite refresh_settle_pending. unfold SingleFlight.in_flight. simpl.
      rewrite Hp. lia.
Qed.

Lemma settles_cons (e : SingleFlight.Event) (es : list SingleFlight.Event) :
  SingleFlight.settles (e :: es)
  = SingleFlight.settles [e] + SingleFlight.settles es.
Proof.
  unfold SingleFlight.settles. change (e :: es) with ([e] ++ es).
  by rewrite filter_app, length_app.
Qed.

(** Across any interleaving, a new exchange can only start after the one
    in flight has settled. *)
Lemma run_in_flight (es : list SingleFlight.Event) (c : Client) :
  let c' := (SingleFlight.run es c).2 in
  SingleFlight.exchanges c' + SingleFlight.in_flight c
  <= SingleFlight.exchanges c + SingleFlight.in_flight c'
     + SingleFlight.settles es.
Proof.
  revert c. induction es as [|e es IH]; intros c; simpl.
  - unfold SingleFlight.settles. simpl. lia.
  - pose proof (event_step_in_flight e c) as Hstep. simpl in Hstep.
    destruct (SingleFlight.event_step e c) as [bs c1]. simpl in Hstep.
    pose proof (IH c1) as Hrest. simpl in Hrest.
    destruct (SingleFlight.run es c1) as [bs' c2]. simpl in *.
    rewrite settles_cons. lia.
Qed.

(** C1.  A call that finds a refresh in flight is handed that very promise
    and starts no exchange.  So when callers pile up on a client that holds
    a refresh token and has no refresh in flight, the first starts the one
    exchange and every later one shares its promise; and over any
    interleaving of calls and settlements the number of exchanges started
    exceeds the number of settlements by at most one. *)
Theorem single_flight (c : Client) :
  (forall p, refreshPromise c = Some p ->
     SingleFlight.refresh_call c = (APIClient.Shared p, c))
  /\ (forall n rt,
        refreshPromise c = None ->
        APIClient.getRefreshToken c = Some rt ->
        truthy (Some rt) = true ->
        exists p config c',
          SingleFlight.run (replicate (S n) SingleFlight.CallRefresh) c
            = (APIClient.Issued p config :: replicate n (APIClient.Shared p), c')
          /\ SingleFlight.exchanges c' = S (SingleFlight.exchanges c)
          /\ refreshPromise c' = Some p)
  /\ (forall es,
        refreshPromise c = None ->
        SingleFlight.exchanges (SingleFlight.run es c).2
        <= SingleFlight.exchanges c + SingleFlight.settles es + 1).
Proof.
  split; [intros p; apply refresh_call_shared|]. split.
  - intros n rt Hp Hrt Ht.
    destruct (refresh_call_issues c rt Hp Hrt Ht) as (c' & Hcall & Hp' & Hex).
    exists (length (calls c)), (APIClient.refresh_config rt), c'.
    split; [|done]. simpl. rewrite Hcall.
    by rewrite (run_calls_shared n c' _ Hp').
  - intros es Hp. pose proof (run_in_flight es c) as H. simpl in H.
    unfold SingleFlight.in_flight in H. rewrite Hp in H.
    revert H. destruct (refreshPromise (SingleFlight.run es c).2); lia.
Qed.

(** Five callers at once on a client with an expired access token. *)
Lemma single_flight_witness :
  exists c',
    SingleFlight.run (replicate 5 SingleFlight.CallRefresh) stale
      = (APIClient.Issued 0 (APIClient.refresh_config "r0")
           :: replicate 4 (APIClient.Shared 0), c')
    /\ SingleFlight.exchanges c' = 1.
Proof.
  destruct (proj1 (proj2 (single_flight stale)) 4 "r0")
    as (p & config & c' & Hrun & Hex & _); try reflexivity.
  exists c'. split; [|exact Hex].
  rewrite Hrun. vm_compute in Hrun. by injection Hrun as <- <- _.
Defined.

(** ** Session bootstrap *)

Lemma stored_access_token_absent (c : Client) :
  localStorage_getItem "access_token" c = None ->
  Cookies_get "access_token" c = None ->
  truthy (AuthInitializer.stored_access_token c) = false.
Proof.
  unfold AuthInitializer.stored_access_token,
    AuthInitializer.document_cookie_access_token, Cookies_get.
  by intros -> ->.
Qed.

Lemma initializeAuth_no_token
    (g : Client -> Outcome User.t * Client) (c : Client) :
  truthy (AuthInitializer.stored_access_token c) = false ->
  AuthInitializer.initializeAuth g c
  = dispatch (Store.SetLoading false)
      (dispatch (Store.SetUser None) (dispatch (Store.SetLoading true) c)).
Proof.
  intros H. unfold AuthInitializer.initializeAuth.
  change (AuthInitializer.stored_access_token (dispatch _ c))
    with (AuthInitializer.stored_access_token c).
  by rewrite H.
Qed.

Lemma initializeAuth_token
    (g : Client -> Outcome User.t * Client) (c : Client) :
  truthy (AuthInitializer.stored_access_token c) = true ->
  AuthInitializer.initializeAuth g c
  = let rc := g (dispatch (Store.SetLoading true) c) in
    match rc.1 with
    | Resolved user =>
        dispatch (Store.SetLoading false)
          (dispatch (Store.SetUser (Some user)) rc.2)
    | Rejected _ =>
        dispatch (Store.SetLoading false) (AuthInitializer.on_error rc.2)
    | Pending => rc.2
    end.
Proof.
  intros H. unfold AuthInitializer.initializeAuth.
  change (AuthInitializer.stored_access_token (dispatch _ c))
    with (AuthInitializer.stored_access_token c).
  rewrite H. cbv zeta. destruct (g _) as [[u|e|] c1]; reflexivity.
Qed.

(** The bootstrap around a who-am-I call that settles.  [g] stands for
    that call, which, like every call of the API client, leaves the store
    alone.  With no access token in either medium the call is not made and
    the user is null; with a token and a call that resolves the user is the
    identity returned; with a token and a call that rejects the user is
    null and the four stored entries are gone.  In each of these cases the
    actions dispatched are setLoading(true), one setUser, and
    setLoading(false) once, last. *)
Theorem session_bootstrap (g : Client -> Outcome User.t * Client) (c : Client) :
  (forall x, same_ui x (g x).2) ->
  let c0 := dispatch (Store.SetLoading true) c in
  let c' := AuthInitializer.initializeAuth g c in
  (localStorage_getItem "access_token" c = None ->
   Cookies_get "access_token" c = None ->
     (forall g', AuthInitializer.initializeAuth g' c = c')
     /\ Store.user (store c') = None
     /\ Store.isAuthenticated (store c') = false
     /\ Store.isLoading (store c') = false
     /\ actions c' = actions c ++ [Store.SetLoading true; Store.SetUser None;
                                   Store.SetLoading false])
  /\ (truthy (AuthInitializer.stored_access_token c) = true ->
      (forall u, (g c0).1 = Resolved u ->
         Store.user (store c') = Some u
         /\ Store.isAuthenticated (store c') = true
         /\ Store.isLoading (store c') = false
         /\ actions c' = actions c ++ [Store.SetLoading true;
                                       Store.SetUser (Some u);
                                       Store.SetLoading false])
      /\ (forall e, (g c0).1 = Rejected e ->
         Store.user (store c') = None
         /\ Store.isAuthenticated (store c') = false
         /\ Store.isLoading (store c') = false
         /\ Cookies_get "access_token" c' = None
         /\ Cookies_get "refresh_token" c' = None
         /\ localStorage_getItem "access_token" c' = None
         /\ localStorage_getItem "refresh_token" c' = None
         /\ actions c' = actions c ++ [Store.SetLoading true; Store.SetUser None;
                                       Store.SetLoading false])).
Proof.
  intros Hg c0 c'. split.
  - intros Hl Hc. pose proof (stored_access_token_absent c Hl Hc) as Hno.
    subst c'. rewrite (initializeAuth_no_token g c Hno).
    split; [intros g'; apply initializeAuth_no_token, Hno|].
    simpl. by rewrite <- !app_assoc.
  - intros Hyes. subst c'. rewrite (initializeAuth_token g c Hyes). cbv zeta.
    fold c0. destruct (Hg c0) as (Hs & Ha & _). split.
    + intros u ->. simpl. rewrite Ha. simpl. by rewrite <- !app_assoc.
    + intros e ->. unfold Cookies_get, localStorage_getItem. simpl.
      rewrite Ha. simpl. rewrite <- !app_assoc.
      repeat split; by simplify_map_eq.
Qed.

(** A stale session: the who-am-I call is refused. *)
Lemma session_bootstrap_witness :
  let c' := AuthInitializer.initializeAuth (fun x => (Rejected expired, x)) stale in
  Store.user (store c') = None
  /\ Store.isLoading (store c') = false
  /\ localStorage_getItem "refresh_token" c' = None.
Proof.
  destruct (proj2 (session_bootstrap (fun x => (Rejected expired, x)) stale
                     (fun x => same_ui_refl x)) eq_refl) as [_ Hfail].
  destruct (Hfail expired eq_refl) as (Hu & _ & Hl & _ & _ & _ & Hr & _).
  split; [exact Hu|]. split; [exact Hl | exact Hr].
Defined.

(** When the who-am-I call never settles, neither does the bootstrap: the
    loading flag stays up. *)
Lemma initializeAuth_pending (g : Client -> Outcome User.t * Client) (c : Client) :
  truthy (AuthInitializer.stored_access_token c) = true ->
  (g (dispatch (Store.SetLoading true) c)).1 = Pending ->
  (forall x, same_ui x (g x).2) ->
  Store.isLoading (store (AuthInitializer.initializeAuth g c)) = true.
Proof.
  intros Hyes Hp Hg. rewrite (initializeAuth_token g c Hyes). cbv zeta.
  rewrite Hp. by destruct (Hg (dispatch (Store.SetLoading true) c)) as (-> & _).
Qed.

(** Such a call exists: with a stale pair stored and a backend that answers
    401 to the refresh as well, who-am-I never settles. *)
Lemma getCurrentUser_can_hang :
  fst <$> APIClient.getCurrentUser 2 (refusing 401) stale = Some Pending.
Proof. reflexivity. Qed.

(** C9 at its failing input.  A stale pair is stored and the backend
    answers 401 to GET /auth/me and to POST /auth/refresh.  The who-am-I
    call sends those two requests and then waits for its own refresh, which
    stays in flight; the bootstrap around it does not get past its await:
    the loading flag is still up, the stored pair is still there, the store
    still shows the user of the former session, and the only action
    dispatched is setLoading(true). *)
Theorem bootstrap_never_completes
    (g : Client -> Outcome User.t * Client) :
  let c0 := dispatch (Store.SetLoading true) stale in
  let me := Config.mk "GET" "/auth/me" [] (Some "Bearer a0") false in
  let refresh :=
    Config.mk "POST" "/auth/refresh" [("refresh_token", "r0")]
              (Some "Bearer a0") false in
  let c1 := with_calls [me; refresh] (with_refreshPromise (Some 1) c0) in
  APIClient.getCurrentUser 2 (refusing 401) c0 = Some (Pending, c1)
  /\ (forall fuel, APIClient.getCurrentUser (S (S fuel)) (refusing 401) c0
                   = Some (Pending, c1))
  /\ (g c0 = (Pending, c1) ->
      let c' := AuthInitializer.initializeAuth g stale in
      Store.isLoading (store c') = true
      /\ Store.isAuthenticated (store c') = true
      /\ Store.user (store c') = Store.user (store stale)
      /\ APIClient.getAccessToken c' = Some "a0"
      /\ APIClient.getRefreshToken c' = Some "r0"
      /\ refreshPromise c' = Some 1
      /\ actions c' = [Store.SetLoading true]).
Proof.
  intros c0 me refresh c1.
  split; [reflexivity|]. split; [intros fuel; reflexivity|].
  intros Hg c'. subst c'.
  rewrite (initializeAuth_token g stale eq_refl). cbv zeta. fold c0.
  rewrite Hg. by repeat split.
Qed.

Lemma bootstrap_never_completes_witness :
  let c0 := dispatch (Store.SetLoading true) stale in
  let g := fun x : Client =>
             match APIClient.getCurrentUser 2 (refusing 401) x with
             | Some (Pending, x') => (Pending (A := User.t), x')
             | _ => (Rejected expired, x)
             end in
  fst <$> APIClient.getCurrentUser 2 (refusing 401) c0 = Some Pending
  /\ Store.isLoading (store (AuthInitializer.initializeAuth g stale)) = true
  /\ APIClient.getRefreshToken (AuthInitializer.initializeAuth g stale)
     = Some "r0".
Proof.
  intros c0 g.
  destruct (bootstrap_never_completes g) as (Hrun & _ & Hboot).
  split; [exact (f_equal (fmap fst) Hrun)|].
  destruct (Hboot eq_refl) as (Hload & _ & _ & _ & Hrt & _).
  split; [exact Hload | exact Hrt].
Defined.

(* ================================================================== *)
(** * Part III. Further properties of the same code                    *)
(* ================================================================== *)

(** ** Role checks, the gate and the route guard *)

Lemma hasRole_no_roles (st : Store.AuthState) (u : User.t) (n : string) :
  Store.user st = Some u -> User.roles u = [] -> Store.hasRole st n = false.
Proof. unfold Store.hasRole. by intros -> ->. Qed.

Lemma constant_false_gate (f : string -> bool) (names : list string) (all : bool) :
  names <> [] -> (forall n, f n = false) ->
  Nat.eqb (length names) 0
  || (if all then forallb f names else existsb f names) = false.
Proof.
  intros Hne Hf. destruct names as [|x xs]; [done|]. simpl.
  rewrite (Hf x). destruct all; simpl; [done|]. clear Hne.
  induction xs as [|y ys IH]; [done|]. simpl. by rewrite (Hf y).
Qed.

(** X1.  Role checks know nothing of the superuser flag: a user without
    roles, superuser or not, holds no role, fails [hasAnyRole] on every
    list, and is refused by the gate whenever a role is required. *)
Theorem role_checks_ignore_superuser
    (st : Store.AuthState) (u : User.t) (names perms : list string)
    (requireAll : bool) :
  Store.user st = Some u ->
  User.roles u = [] ->
  names <> [] ->
  (forall n, Store.hasRole st n = false)
  /\ Store.hasAnyRole st names = false
  /\ PermissionGate.hasRequiredRoles st names requireAll = false
  /\ PermissionGate.hasAccess st perms names requireAll = false.
Proof.
  intros Hu Hr Hne.
  assert (Hrole : forall n, Store.hasRole st n = false)
    by (intros n; by apply (hasRole_no_roles st u)).
  assert (Hgate : PermissionGate.hasRequiredRoles st names requireAll = false)
    by (by apply constant_false_gate).
  split; [done|]. split.
  - unfold Store.hasAnyRole. by rewrite Hu, Hr.
  - split; [done|]. unfold PermissionGate.hasAccess.
    by rewrite Hgate, andb_false_r.
Qed.

Lemma role_checks_ignore_superuser_witness :
  Store.hasPermission (signed_in (person "root@x.com" true [])) "roles.delete"
    = true
  /\ PermissionGate.hasAccess (signed_in (person "root@x.com" true []))
       ["roles.delete"] ["admin"] false = false.
Proof.
  split; [reflexivity|].
  apply (role_checks_ignore_superuser
           (signed_in (person "root@x.com" true []))
           (person "root@x.com" true []) ["admin"] ["roles.delete"] false);
    [reflexivity | reflexivity | discriminate].
Defined.

Lemma all_implies_any (f : string -> bool) (names : list string) :
  Nat.eqb (length names) 0 || forallb f names = true ->
  Nat.eqb (length names) 0 || existsb f names = true.
Proof.
  destruct names as [|x xs]; [done|]. simpl.
  intros [Hx _]%andb_true_iff. by rewrite Hx.
Qed.

(** X2.  The gate's all-mode is at least as strict as its any-mode:
    whatever passes with [requireAll] passes without it. *)
Theorem requireAll_is_stricter
    (st : Store.AuthState) (perms roles : list string) :
  PermissionGate.hasAccess st perms roles true = true ->
  PermissionGate.hasAccess st perms roles false = true.
Proof.
  unfold PermissionGate.hasAccess, PermissionGate.hasRequiredPermissions,
    PermissionGate.hasRequiredRoles.
  intros [Hp Hr]%andb_true_iff. apply andb_true_iff.
  split; by apply all_implies_any.
Qed.

Lemma requireAll_is_stricter_witness :
  PermissionGate.hasAccess
    (signed_in (person "a@x.com" false [role "staff" ["A"; "B"]]))
    ["A"; "B"] ["staff"] false = true.
Proof.
  apply (requireAll_is_stricter
           (signed_in (person "a@x.com" false [role "staff" ["A"; "B"]]))
           ["A"; "B"] ["staff"]).
  reflexivity.
Defined.

(** X3.  On a non-empty list the store's any-combinators and the gate's
    any-mode give the same answer. *)
Theorem hasAny_agrees_with_gate (st : Store.AuthState) (names : list string) :
  names <> [] ->
  Store.hasAnyPermission st names
    = PermissionGate.hasRequiredPermissions st names false
  /\ Store.hasAnyRole st names = PermissionGate.hasRequiredRoles st names false.
Proof.
  intros Hne. split; apply Bool.eq_iff_eq_true.
  - rewrite hasAnyPermission_iff.
    unfold PermissionGate.hasRequiredPermissions. rewrite gate_any. split.
    + intros [H|(u & Hu & Hsu)]; [by right|]. right.
      destruct names as [|x xs]; [done|]. exists x.
      split; [apply list_elem_of_here|].
      by apply (hasPermission_superuser st u).
    + intros [?|H]; [done|by left].
  - rewrite hasAnyRole_iff.
    unfold PermissionGate.hasRequiredRoles. rewrite gate_any.
    split; [by right|]. by intros [?|?].
Qed.

Lemma hasAny_agrees_with_gate_witness :
  Store.hasAnyPermission (signed_in (person "root@x.com" true [])) ["x"]
  = PermissionGate.hasRequiredPermissions
      (signed_in (person "root@x.com" true [])) ["x"] false.
Proof.
  apply (hasAny_agrees_with_gate (signed_in (person "root@x.com" true [])) ["x"]).
  discriminate.
Defined.

(** ** updateUser *)

(** X4.  A patch that mentions neither [roles] nor [is_superuser] (a
    profile edit) changes no permission or role check. *)
Theorem profile_patch_keeps_grants
    (st : Store.AuthState) (p : PartialUser.t) (n : string)
    (names : list string) :
  PartialUser.roles p = None ->
  PartialUser.is_superuser p = None ->
  Store.hasPermission (Store.updateUser p st) n = Store.hasPermission st n
  /\ Store.hasRole (Store.updateUser p st) n = Store.hasRole st n
  /\ Store.hasAnyPermission (Store.updateUser p st) names
     = Store.hasAnyPermission st names
  /\ Store.hasAnyRole (Store.updateUser p st) names = Store.hasAnyRole st names.
Proof.
  intros Hr Hs.
  unfold Store.hasAnyPermission, Store.hasPermission, Store.hasRole,
    Store.hasAnyRole, Store.updateUser.
  destruct (Store.user st) as [u|]; simpl; [|done].
  by rewrite Hr, Hs.
Qed.

Lemma profile_patch_keeps_grants_witness :
  Store.hasPermission
    (Store.updateUser rename_patch
       (signed_in (person "a@x.com" false [role "staff" ["A"; "B"]]))) "A"
  = true.
Proof.
  rewrite (proj1 (profile_patch_keeps_grants
                    (signed_in (person "a@x.com" false [role "staff" ["A"; "B"]]))
                    rename_patch "A" [] eq_refl eq_refl)).
  reflexivity.
Defined.

(** X5.  [updateUser] with a whole user, as the settings page calls it
    with the backend's answer: when somebody is signed in, roles and
    superuser flag become the new user's, so every check answers as it
    would for the new user; the authenticated flag is not touched. *)
Theorem updateUser_with_whole_user
    (st : Store.AuthState) (u u' : User.t) (n : string) :
  Store.user st = Some u ->
  let st' := Store.updateUser (as_partial u') st in
  (exists u'', Store.user st' = Some u''
     /\ User.roles u'' = User.roles u'
     /\ User.is_superuser u'' = User.is_superuser u'
     /\ User.id u'' = User.id u' /\ User.email u'' = User.email u')
  /\ Store.hasPermission st' n
     = Store.hasPermission (Store.setUser (Some u') st) n
  /\ Store.hasRole st' n = Store.hasRole (Store.setUser (Some u') st) n
  /\ Store.isAuthenticated st' = Store.isAuthenticated st.
Proof.
  intros Hu. simpl.
  unfold Store.hasPermission, Store.hasRole, Store.updateUser.
  rewrite Hu. simpl. split; [|done]. eexists. by split.
Qed.

Lemma updateUser_with_whole_user_witness :
  Store.hasPermission
    (Store.updateUser (as_partial (person "root@x.com" true []))
       (signed_in (person "a@x.com" false [role "staff" ["A"; "B"]])))
    "users.delete" = true.
Proof.
  rewrite (proj1 (proj2 (updateUser_with_whole_user
    (signed_in (person "a@x.com" false [role "staff" ["A"; "B"]]))
    (person "a@x.com" false [role "staff" ["A"; "B"]])
    (person "root@x.com" true []) "users.delete" eq_refl))).
  reflexivity.
Defined.

(** ** The route guard *)

Lemma hasAccess_no_requirement (st : Store.AuthState) (all : bool) :
  PermissionGate.hasAccess st [] [] all = true.
Proof. reflexivity. Qed.

Lemma unguarded_lists (p : ProtectedRoute.Props) :
  ProtectedRoute.guarded p = false ->
  ProtectedRoute.requiredPermissions p = []
  /\ ProtectedRoute.requiredRoles p = [].
Proof.
  unfold ProtectedRoute.guarded.
  destruct (ProtectedRoute.requiredPermissions p),
    (ProtectedRoute.requiredRoles p); simpl; try done.
Qed.

Lemma first_render (st : Store.AuthState) (p : ProtectedRoute.Props) :
  (ProtectedRoute.render st p = ProtectedRoute.Children <->
     Store.isLoading st = false
     /\ (if Store.isAuthenticated st
         then PermissionGate.hasAccess st (ProtectedRoute.requiredPermissions p)
                (ProtectedRoute.requiredRoles p) (ProtectedRoute.requireAll p)
              = true
         else ProtectedRoute.requireAuth p = false))
  /\ (ProtectedRoute.redirect st p = None <->
        ProtectedRoute.render st p = ProtectedRoute.Spinner
        \/ ProtectedRoute.render st p = ProtectedRoute.Children)
  /\ (Store.isLoading st = false -> Store.isAuthenticated st = false ->
      ProtectedRoute.requireAuth p = false ->
      ProtectedRoute.render st p = ProtectedRoute.Children
      /\ ProtectedRoute.redirect st p = None).
Proof.
  unfold ProtectedRoute.redirect, ProtectedRoute.render, ProtectedRoute.gate.
  destruct (Store.isLoading st), (Store.isAuthenticated st),
    (ProtectedRoute.requireAuth p); simpl;
    try (split; [split; [done|by intros [? ?]]|split; [split; [by left|done]|done]]);
    try (split; [split; [done|by intros [_ ?]]
                |split; [split; [done|by intros [?|?]]|done]]).
  - destruct (ProtectedRoute.guarded p) eqn:Hg.
    + destruct (PermissionGate.hasAccess _ _ _ _); simpl.
      * split; [done|]. split; [split; [by right|done]|done].
      * split; [split; [done|by intros [_ ?]]|].
        split; [split; [done|by intros [?|?]]|done].
    + destruct (unguarded_lists p Hg) as [-> ->].
      rewrite hasAccess_no_requirement.
      split; [done|]. split; [split; [by right|done]|done].
  - destruct (ProtectedRoute.guarded p) eqn:Hg.
    + destruct (PermissionGate.hasAccess _ _ _ _); simpl.
      * split; [done|]. split; [split; [by right|done]|done].
      * split; [split; [done|by intros [_ ?]]|].
        split; [split; [done|by intros [?|?]]|done].
    + destruct (unguarded_lists p Hg) as [-> ->].
      rewrite hasAccess_no_requirement.
      split; [done|]. split; [split; [by right|done]|done].
  - split; [done|]. split; [split; [by right|done]|done].
Qed.

(** The number of names visited depends only on the answers for the
    names listed. *)
Lemma visited_ext (all : bool) (f g : string -> bool) (names : list string) :
  (forall n, n ∈ names -> f n = g n) ->
  ProtectedRoute.visited all f names = ProtectedRoute.visited all g names.
Proof.
  unfold ProtectedRoute.visited. intros Hfg.
  destruct all; induction names as [|x rest IH]; simpl; try done.
  - rewrite <- (Hfg x) by left. destruct (f x); [|done].
    f_equal. apply IH. intros n Hn. apply Hfg. by right.
  - rewrite <- (Hfg x) by left. destruct (f x); [done|].
    f_equal. apply IH. intros n Hn. apply Hfg. by right.
Qed.

Lemma visited_short (all : bool) (f g : string -> bool) (names : list string) :
  length names <= 1 ->
  ProtectedRoute.visited all f names = ProtectedRoute.visited all g names.
Proof.
  unfold ProtectedRoute.visited.
  destruct all, names as [|x [|y rest]]; simpl; try done; try lia;
    intros _; by destruct (f x), (g x).
Qed.

Lemma visited_some_none (f : string -> bool) (names : list string) :
  (forall n, n ∈ names -> f n = false) ->
  ProtectedRoute.visited_some f names = length names.
Proof.
  induction names as [|x rest IH]; [done|]. intros Hf. simpl.
  rewrite (Hf x) by left. f_equal. apply IH. intros n Hn. apply Hf. by right.
Qed.

Lemma rerender_cases (prev st : Store.AuthState) (p : ProtectedRoute.Props) :
  (ProtectedRoute.rerender prev st p = ProtectedRoute.Throws <->
     ProtectedRoute.mounts_gate prev p = true
     /\ ProtectedRoute.mounts_gate st p = true
     /\ ProtectedRoute.gate_hooks prev p <> ProtectedRoute.gate_hooks st p)
  /\ (ProtectedRoute.gate_hooks prev p = ProtectedRoute.gate_hooks st p ->
      ProtectedRoute.rerender prev st p
      = ProtectedRoute.Shows (ProtectedRoute.render st p)).
Proof.
  unfold ProtectedRoute.rerender.
  destruct (Nat.eqb_spec (ProtectedRoute.gate_hooks prev p)
                         (ProtectedRoute.gate_hooks st p)) as [Heq|Hne].
  - rewrite andb_false_r. split; [|done]. split; [done|]. by intros (_ & _ & ?).
  - split; [|done].
    destruct (ProtectedRoute.mounts_gate prev p),
      (ProtectedRoute.mounts_gate st p); simpl; split; try done;
      by intros (? & ? & _).
Qed.

(** X6.  On its first render the route shows its children exactly when
    the store is not loading and either the visitor is authenticated and
    the gate grants access, or the visitor is not authenticated and the
    route does not require authentication; in that last case the required
    permissions and roles are not looked at.  With that render a redirect
    is issued exactly when the route shows neither the spinner nor the
    children.  A render after a store change shows what a first render
    would, unless it throws; it throws exactly when the gate is returned
    before and after and the number of names its checks visit has changed.
    It does not throw when the answers for the listed names are what they
    were, nor when each list has at most one name.  It does throw when a
    gate in any-mode on two or more permissions and no roles was passed on
    its first name and the store now grants none of the names. *)
Theorem protected_route_children (st : Store.AuthState) (p : ProtectedRoute.Props) :
  (ProtectedRoute.render st p = ProtectedRoute.Children <->
     Store.isLoading st = false
     /\ (if Store.isAuthenticated st
         then PermissionGate.hasAccess st (ProtectedRoute.requiredPermissions p)
                (ProtectedRoute.requiredRoles p) (ProtectedRoute.requireAll p)
              = true
         else ProtectedRoute.requireAuth p = false))
  /\ (ProtectedRoute.redirect st p = None <->
        ProtectedRoute.render st p = ProtectedRoute.Spinner
        \/ ProtectedRoute.render st p = ProtectedRoute.Children)
  /\ (Store.isLoading st = false -> Store.isAuthenticated st = false ->
      ProtectedRoute.requireAuth p = false ->
      ProtectedRoute.render st p = ProtectedRoute.Children
      /\ ProtectedRoute.redirect st p = None)
  /\ (forall prev,
        (ProtectedRoute.rerender prev st p = ProtectedRoute.Throws
         \/ ProtectedRoute.rerender prev st p
            = ProtectedRoute.Shows (ProtectedRoute.render st p))
        /\ (ProtectedRoute.rerender prev st p = ProtectedRoute.Throws <->
              ProtectedRoute.mounts_gate prev p = true
              /\ ProtectedRoute.mounts_gate st p = true
              /\ ProtectedRoute.gate_hooks prev p
                 <> ProtectedRoute.gate_hooks st p))
  /\ (forall prev,
        (forall n, n ∈ ProtectedRoute.requiredPermissions p ->
                   Store.hasPermission prev n = Store.hasPermission st n) ->
        (forall n, n ∈ ProtectedRoute.requiredRoles p ->
                   Store.hasRole prev n = Store.hasRole st n) ->
        ProtectedRoute.rerender prev st p
        = ProtectedRoute.Shows (ProtectedRoute.render st p))
  /\ (forall prev,
        length (ProtectedRoute.requiredPermissions p) <= 1 ->
        length (ProtectedRoute.requiredRoles p) <= 1 ->
        ProtectedRoute.rerender prev st p
        = ProtectedRoute.Shows (ProtectedRoute.render st p))
  /\ (forall prev a b rest,
        ProtectedRoute.mounts_gate prev p = true ->
        ProtectedRoute.mounts_gate st p = true ->
        ProtectedRoute.requireAll p = false ->
        ProtectedRoute.requiredPermissions p = a :: b :: rest ->
        ProtectedRoute.requiredRoles p = [] ->
        Store.hasPermission prev a = true ->
        (forall n, n ∈ a :: b :: rest -> Store.hasPermission st n = false) ->
        ProtectedRoute.rerender prev st p = ProtectedRoute.Throws).
Proof.
  destruct (first_render st p) as (H1 & H2 & H3).
  split; [exact H1|]. split; [exact H2|]. split; [exact H3|].
  split; [|split; [|split]].
  - intros prev. destruct (rerender_cases prev st p) as [Hthrows Hshows].
    split; [|exact Hthrows].
    unfold ProtectedRoute.rerender. destruct (_ && _); [by left | by right].
  - intros prev Hperms Hroles. apply rerender_cases.
    unfold ProtectedRoute.gate_hooks.
    by rewrite (visited_ext _ _ _ _ Hperms), (visited_ext _ _ _ _ Hroles).
  - intros prev Hperms Hroles. apply rerender_cases.
    unfold ProtectedRoute.gate_hooks.
    by rewrite (visited_short _ (Store.hasPermission prev)
                  (Store.hasPermission st) _ Hperms),
               (visited_short _ (Store.hasRole prev) (Store.hasRole st) _ Hroles).
  - intros prev a b rest Hprev Hst Hany Hnames Hnoroles Hheld Hlost.
    apply rerender_cases. split; [done|]. split; [done|].
    unfold ProtectedRoute.gate_hooks, ProtectedRoute.visited.
    rewrite Hany, Hnames, Hnoroles.
    rewrite (visited_some_none (Store.hasPermission st) _ Hlost).
    simpl. rewrite Hheld. lia.
Qed.

Lemma protected_route_children_witness :
  ProtectedRoute.render Store.initial
    (ProtectedRoute.mkProps false ["users.delete"] ["admin"] "/login" true)
  = ProtectedRoute.Children
  /\ ProtectedRoute.render (signed_in (person "a@x.com" false []))
       (ProtectedRoute.mkProps true ["A"; "C"] [] "/login" false)
     = ProtectedRoute.AccessDenied
  /\ ProtectedRoute.rerender
       (signed_in (person "a@x.com" false [role "staff" ["A"; "B"]]))
       (signed_in (person "a@x.com" false []))
       (ProtectedRoute.mkProps true ["A"; "C"] [] "/login" false)
     = ProtectedRoute.Throws.
Proof.
  split; [|split].
  - apply (proj1 (proj2 (proj2 (protected_route_children Store.initial
             (ProtectedRoute.mkProps false ["users.delete"] ["admin"] "/login"
                                     true))))); reflexivity.
  - reflexivity.
  - apply (proj2 (proj2 (proj2 (proj2 (proj2 (proj2
             (protected_route_children (signed_in (person "a@x.com" false []))
                (ProtectedRoute.mkProps true ["A"; "C"] [] "/login" false)))))))
           (signed_in (person "a@x.com" false [role "staff" ["A"; "B"]]))
           "A" "C" []); reflexivity.
Defined.

(** X7.  The hook and the gate agree: [useRequireAuth().hasAccess] is the
    authenticated flag together with the gate's verdict on the same lists
    (an absent options object or list counts as empty, an absent
    [requireAll] as false). *)
Theorem useRequireAuth_agrees_with_gate
    (st : Store.AuthState) (o : UseRequireAuth.Options) :
  UseRequireAuth.hasAccess st None = Store.isAuthenticated st
  /\ UseRequireAuth.hasAccess st (Some o)
     = Store.isAuthenticated st
       && PermissionGate.hasAccess st
            (default [] (UseRequireAuth.requiredPermissions o))
            (default [] (UseRequireAuth.requiredRoles o))
            (default false (UseRequireAuth.requireAll o)).
Proof.
  split.
  { unfold UseRequireAuth.hasAccess. simpl. by rewrite !andb_true_r. }
  destruct o as [perms roles all].
  unfold UseRequireAuth.hasAccess, UseRequireAuth.hasRequiredPermissions,
    UseRequireAuth.hasRequiredRoles, PermissionGate.hasAccess,
    PermissionGate.hasRequiredPermissions, PermissionGate.hasRequiredRoles.
  simpl. rewrite <- andb_assoc. by destruct perms, roles.
Qed.

(** ** The code field of the second-factor form *)

Lemma strip_all_digits (value : string) :
  all_digits (TwoFactorForm.strip_non_digits value) = true.
Proof.
  induction value as [|ch rest IH]; [done|]. simpl.
  destruct (TwoFactorForm.is_digit ch) eqn:E; [|done]. simpl. by rewrite E.
Qed.

Lemma strip_digits_id (s : string) :
  all_digits s = true -> TwoFactorForm.strip_non_digits s = s.
Proof.
  induction s as [|ch rest IH]; [done|]. simpl.
  intros [Hd Hr]%andb_true_iff. by rewrite Hd, IH.
Qed.

Lemma slice0_all_digits (n : nat) (s : string) :
  all_digits s = true -> all_digits (TwoFactorForm.slice0 n s) = true.
Proof.
  revert s. induction n as [|n IH]; intros [|ch rest]; try done. simpl.
  intros [Hd Hr]%andb_true_iff. by rewrite Hd, IH.
Qed.

Lemma slice0_length (n : nat) (s : string) :
  String.length (TwoFactorForm.slice0 n s) = Nat.min n (String.length s).
Proof.
  revert s. induction n as [|n IH]; intros [|ch rest]; try done. simpl.
  by rewrite IH.
Qed.

Lemma slice0_short (n : nat) (s : string) :
  String.length s <= n -> TwoFactorForm.slice0 n s = s.
Proof.
  revert s. induction n as [|n IH]; intros [|ch rest]; simpl; try done; try lia.
  intros H. rewrite IH; [done|lia].
Qed.

(** X8.  Whatever is typed or pasted into the code field, the value kept
    is made of digits only and is at most six long; typing it again changes
    nothing; digits beyond the sixth are dropped; and only a value of
    exactly six digits is handed to the verification. *)
Theorem code_field_keeps_six_digits (value : string) :
  all_digits (TwoFactorForm.onChange value) = true
  /\ String.length (TwoFactorForm.onChange value) <= 6
  /\ TwoFactorForm.onChange (TwoFactorForm.onChange value)
     = TwoFactorForm.onChange value
  /\ (all_digits value = true -> String.length value <= 6 ->
      TwoFactorForm.onChange value = value)
  /\ (forall code,
        TwoFactorForm.handleSubmit (TwoFactorForm.onChange value) = Some code ->
        code = TwoFactorForm.onChange value
        /\ String.length code = 6 /\ all_digits code = true).
Proof.
  assert (Hd : all_digits (TwoFactorForm.onChange value) = true)
    by apply slice0_all_digits, strip_all_digits.
  assert (Hl : String.length (TwoFactorForm.onChange value) <= 6).
  { unfold TwoFactorForm.onChange. rewrite slice0_length. lia. }
  split; [done|]. split; [done|]. split.
  { unfold TwoFactorForm.onChange at 1.
    rewrite (strip_digits_id _ Hd). by apply slice0_short. }
  split.
  { intros Hv Hlen. unfold TwoFactorForm.onChange.
    rewrite (strip_digits_id _ Hv). by apply slice0_short. }
  intros code. unfold TwoFactorForm.handleSubmit.
  destruct (Nat.eqb _ 6) eqn:E; [|done]. intros [= <-].
  apply Nat.eqb_eq in E. by repeat split.
Qed.

Lemma code_field_keeps_six_digits_witness :
  TwoFactorForm.onChange "123456" = "123456"
  /\ TwoFactorForm.onChange "12 34-56 789" = "123456".
Proof.
  split; [|reflexivity].
  apply (proj1 (proj2 (proj2 (proj2 (code_field_keeps_six_digits "123456")))));
    [reflexivity | simpl; lia].
Defined.

(** ** Error toasts *)

(** X9.  [handleError] stays silent exactly for a 401 that carries data.
    An error response with an empty body is announced as a network error
    whatever its status, a 401 included.  Otherwise the toast is the
    response's message, else its detail, else 'An error occurred', an empty
    string counting as absent. *)
Theorem handleError_toasts (error : APIClient.Failure) :
  (APIClient.handleError error = None <->
     exists data, APIClient.response error = Some (401%Z, Some data))
  /\ (forall status,
        APIClient.response error = Some (status, None) ->
        APIClient.request error = true ->
        APIClient.handleError error
        = Some "Network error. Please check your connection.")
  /\ (forall status m d,
        APIClient.response error
          = Some (status, Some (APIClient.mkErrorData m d)) ->
        status <> 401%Z ->
        APIClient.handleError error
        = Some (if truthy m then default "" m
                else if truthy d then default "" d
                else "An error occurred")).
Proof.
  unfold APIClient.handleError. split; [|split].
  - destruct (APIClient.response error) as [[status [data|]]|].
    + destruct (Z.eqb_spec status 401) as [->|Hne]; simpl.
      * split; [|done]. intros _. by exists data.
      * split; [done|]. intros (data' & [= ? _]). done.
    + destruct (APIClient.request error); split; try done;
        by intros (data' & ?).
    + destruct (APIClient.request error); split; try done;
        by intros (data' & ?).
  - intros status -> ->. done.
  - intros status m d -> Hne.
    destruct (Z.eqb_spec status 401) as [?|_]; [done|]. simpl. f_equal.
    unfold APIClient.js_or_else, js_or, truthy.
    destruct m as [m|]; [destruct (String.eqb m "") eqn:Em|];
      (destruct d as [d|]; [destruct (String.eqb d "") eqn:Ed|]);
      simpl; rewrite ?Em, ?Ed; simpl; rewrite ?Em, ?Ed; done.
Qed.

Lemma handleError_toasts_witness :
  APIClient.handleError (APIClient.mkFailure (Some (401%Z, None)) true)
  = Some "Network error. Please check your connection.".
Proof.
  apply (proj1 (proj2 (handleError_toasts
           (APIClient.mkFailure (Some (401%Z, None)) true))) 401%Z);
    reflexivity.
Defined.

(** ** Token storage *)

Lemma no_tokens_clearTokens (c : Client) : no_tokens (APIClient.clearTokens c).
Proof.
  unfold no_tokens, Cookies_get, localStorage_getItem. simpl.
  repeat split; by simplify_map_eq.
Qed.

Lemma no_tokens_getters (c : Client) :
  no_tokens c ->
  APIClient.getAccessToken c = None /\ APIClient.getRefreshToken c = None.
Proof.
  unfold APIClient.getAccessToken, APIClient.getRefreshToken.
  by intros (-> & -> & -> & ->).
Qed.

Lemma clearTokens_no_tokens (c : Client) :
  no_tokens c -> APIClient.clearTokens c = c.
Proof.
  destruct c as [st acts ck ls rp cs loc lo].
  unfold no_tokens, APIClient.clearTokens, Cookies_remove,
    localStorage_removeItem, Cookies_get, localStorage_getItem,
    with_cookies, with_localStorage. simpl.
  intros (H1 & H2 & H3 & H4).
  by rewrite (delete_id ck "access_token" H1), (delete_id ck "refresh_token" H2),
    (delete_id ls "access_token" H3), (delete_id ls "refresh_token" H4).
Qed.

(** X10.  Which token the client uses after [setTokens].  A remembered
    pair is used at once.  A session pair is used only when the cookie jar
    holds no usable token of that name: a cookie left by an earlier
    remembered login keeps being read instead of the new pair. *)
Theorem token_used_after_setTokens
    (a r : string) (m : option bool) (c : Client) :
  truthy (Some a) = true ->
  truthy (Some r) = true ->
  (m = Some true ->
     APIClient.getAccessToken (APIClient.setTokens a r m c) = Some a
     /\ APIClient.getRefreshToken (APIClient.setTokens a r m c) = Some r)
  /\ (m <> Some true ->
      APIClient.getAccessToken (APIClient.setTokens a r m c)
      = (if truthy (Cookies_get "access_token" c)
         then Cookies_get "access_token" c else Some a)
      /\ APIClient.getRefreshToken (APIClient.setTokens a r m c)
         = (if truthy (Cookies_get "refresh_token" c)
            then Cookies_get "refresh_token" c else Some r)).
Proof.
  intros Ha Hr.
  unfold APIClient.getAccessToken, APIClient.getRefreshToken,
    APIClient.setTokens, js_or, Cookies_get, localStorage_getItem.
  split.
  - intros ->. simpl. rewrite lookup_insert_ne by done. rewrite !lookup_insert_eq.
    by rewrite Ha, Hr.
  - intros Hm.
    assert (default false m = false) as -> by (by destruct m as [[]|]).
    simpl. rewrite lookup_insert_ne by done. by rewrite !lookup_insert_eq.
Qed.

Lemma token_used_after_setTokens_witness :
  APIClient.getAccessToken
    (APIClient.setTokens "A2" "R2" (Some false)
       (APIClient.setTokens "A1" "R1" (Some true) nobody))
  = Some "A1".
Proof.
  rewrite (proj1 (proj2 (token_used_after_setTokens "A2" "R2" (Some false)
             (APIClient.setTokens "A1" "R1" (Some true) nobody)
             eq_refl eq_refl) ltac:(discriminate))).
  reflexivity.
Defined.

(** X11.  [clearTokens] undoes [setTokens] in either medium: afterwards
    no entry is left, both getters answer null, requests go out without an
    Authorization header of the client's making, and clearing again
    changes nothing. *)
Theorem clearTokens_erases
    (a r : string) (m : option bool) (c : Client) (config : Config.t) :
  let c' := APIClient.clearTokens (APIClient.setTokens a r m c) in
  no_tokens c'
  /\ APIClient.getAccessToken c' = None
  /\ APIClient.getRefreshToken c' = None
  /\ APIClient.request_interceptor c' config = config
  /\ APIClient.clearTokens c' = c'.
Proof.
  cbv zeta.
  pose proof (no_tokens_clearTokens (APIClient.setTokens a r m c)) as Hno.
  destruct (no_tokens_getters _ Hno) as [Ha Hr].
  split; [done|]. split; [done|]. split; [done|]. split.
  - unfold APIClient.request_interceptor. by rewrite Ha.
  - by apply clearTokens_no_tokens.
Qed.

(** ** The pipeline, case by case *)

(** X12.  No request through the pipeline ever changes the auth store,
    dispatches a store action, invokes logout or navigates: the
    interceptor's catch arm cannot be reached, whatever the backend
    answers. *)
Theorem pipeline_leaves_store_alone
    (fuel : nat) (backend : Backend) (c : Client) (config : Config.t) :
  exists r c',
    APIClient.client (S (S fuel)) backend c config = Some (r, c')
    /\ store c' = store c
    /\ actions c' = actions c
    /\ logoutCalls c' = logoutCalls c
    /\ location c' = location c.
Proof.
  destruct (client_total fuel backend c config)
    as (r & c' & new & Hrun & _ & _ & _ & Hui).
  exists r, c'. split; [exact Hrun | exact Hui].
Qed.

(** X13.  A failure is handed to the caller as it is, after one request
    and with the client unchanged, whenever no refresh can help: the status
    is not 401, or the request was already retried, or no refresh is in
    flight and no usable refresh token is stored. *)
Theorem failure_without_retry
    (fuel : nat) (backend : Backend) (c : Client) (config : Config.t)
    (status : option Z) :
  let config1 := APIClient.request_interceptor c config in
  backend (calls c) config1 = Fail status ->
  status <> Some 401%Z \/ Config._retry config = true
  \/ (refreshPromise c = None /\ truthy (APIClient.getRefreshToken c) = false) ->
  exists e,
    APIClient.client (S (S fuel)) backend c config
      = Some (Rejected e, with_calls (calls c ++ [config1]) c)
    /\ AxiosError.status e = status
    /\ Config.url (AxiosError.config e) = Config.url config.
Proof.
  intros config1 Hfail Hwhy.
  destruct (request_interceptor_fields c config) as (_ & Hu & _ & Hr).
  fold config1 in Hu, Hr.
  rewrite client_unfold. cbv zeta. fold config1. rewrite Hfail.
  destruct (bool_decide (status = Some 401%Z) && negb (Config._retry config1))
    eqn:Hcond.
  - apply andb_true_iff in Hcond as [H401 Hfresh].
    apply bool_decide_eq_true in H401. apply negb_true_iff in Hfresh.
    rewrite Hr in Hfresh.
    destruct Hwhy as [?|[?|[Hp Hno]]]; [done|congruence|].
    rewrite refreshAccessToken_idle by exact Hp.
    change (APIClient.getRefreshToken (with_calls (calls c ++ [config1]) c))
      with (APIClient.getRefreshToken c).
    destruct (APIClient.getRefreshToken c) as [rt|]; [rewrite Hno|];
      cbn [mbind option_bind]; eexists; (split; [reflexivity|by split]).
  - eexists. split; [reflexivity|by split].
Qed.

Lemma failure_without_retry_witness :
  exists e,
    APIClient.client 2 (refusing 403) access_only list_users
      = Some (Rejected e,
              with_calls [APIClient.request_interceptor access_only list_users]
                         access_only)
    /\ AxiosError.status e = Some 401%Z.
Proof.
  destruct (failure_without_retry 0 (refusing 403) access_only list_users
              (Some 401%Z) eq_refl)
    as (e & Hrun & Hs & _).
  { right. right. split; reflexivity. }
  exists e. split; [exact Hrun | exact Hs].
Defined.

(** X14.  A refresh that the backend refuses with anything but a 401
    (or that gets no answer) erases all four stored entries, ends the
    refresh, and gives the caller the original 401 after two requests and
    no retry. *)
Theorem refused_refresh_clears_tokens
    (fuel : nat) (backend : Backend) (c : Client) (config : Config.t)
    (rt : string) (status : option Z) :
  let config1 := APIClient.request_interceptor c config in
  let rconfig := APIClient.request_interceptor c (APIClient.refresh_config rt) in
  refreshPromise c = None ->
  Config._retry config = false ->
  backend (calls c) config1 = Fail (Some 401%Z) ->
  APIClient.getRefreshToken c = Some rt ->
  truthy (Some rt) = true ->
  backend (calls c ++ [config1]) rconfig = Fail status ->
  status <> Some 401%Z ->
  exists c',
    APIClient.client (S (S fuel)) backend c config
      = Some (Rejected (AxiosError.mk (Some 401%Z) (Config.set_retry true config1)),
              c')
    /\ calls c' = calls c ++ [config1; rconfig]
    /\ no_tokens c'
    /\ refreshPromise c' = None.
Proof.
  intros config1 rconfig Hp Hfresh H401 Hrt Hrtt Hrefuse Hne.
  destruct (request_interceptor_fields c config) as (_ & _ & _ & Hr).
  fold config1 in Hr.
  rewrite client_unfold. cbv zeta. fold config1. rewrite H401.
  rewrite bool_decide_eq_true_2 by done. rewrite Hr, Hfresh. simpl negb.
  rewrite andb_true_r.
  rewrite refreshAccessToken_idle by exact Hp.
  change (APIClient.getRefreshToken (with_calls (calls c ++ [config1]) c))
    with (APIClient.getRefreshToken c).
  rewrite Hrt, Hrtt. cbv zeta.
  change (APIClient.request_interceptor (with_calls (calls c ++ [config1]) c))
    with (APIClient.request_interceptor c).
  fold rconfig.
  change (calls (with_calls (calls c ++ [config1]) c)) with (calls c ++ [config1]).
  rewrite Hrefuse. rewrite bool_decide_eq_false_2 by done.
  rewrite refresh_settle_rejected. cbn [mbind option_bind].
  eexists. split; [reflexivity|]. split.
  { simpl. by rewrite <- app_assoc. }
  split; [apply no_tokens_clearTokens | reflexivity].
Qed.

Lemma refused_refresh_clears_tokens_witness :
  exists c',
    APIClient.client 2 (refusing 403) stale list_users
      = Some (Rejected (AxiosError.mk (Some 401%Z)
                (Config.mk "GET" "/users/" [] (Some "Bearer a0") true)), c')
    /\ no_tokens c'.
Proof.
  destruct (refused_refresh_clears_tokens 0 (refusing 403) stale list_users
              "r0" (Some 403%Z))
    as (c' & Hrun & _ & Hno & _); try reflexivity; [discriminate|].
  exists c'. split; [exact Hrun | exact Hno].
Defined.

(** X15.  A 401 in answer to the refresh itself leaves the caller
    waiting for ever: nothing is erased, the refresh stays in flight, and
    from then on every request that meets a 401 waits as well. *)
Theorem refresh_401_never_settles
    (fuel : nat) (backend : Backend) (c : Client) (config : Config.t)
    (rt : string) :
  let config1 := APIClient.request_interceptor c config in
  let rconfig := APIClient.request_interceptor c (APIClient.refresh_config rt) in
  refreshPromise c = None ->
  Config._retry config = false ->
  backend (calls c) config1 = Fail (Some 401%Z) ->
  APIClient.getRefreshToken c = Some rt ->
  truthy (Some rt) = true ->
  backend (calls c ++ [config1]) rconfig = Fail (Some 401%Z) ->
  exists c',
    APIClient.client (S (S fuel)) backend c config = Some (Pending, c')
    /\ cookies c' = cookies c
    /\ localStorage c' = localStorage c
    /\ is_Some (refreshPromise c')
    /\ (forall fuel' backend' config',
          Config._retry config' = false ->
          backend' (calls c') (APIClient.request_interceptor c' config')
            = Fail (Some 401%Z) ->
          fst <$> APIClient.client (S fuel') backend' c' config' = Some Pending).
Proof.
  intros config1 rconfig Hp Hfresh H401 Hrt Hrtt Hrefuse.
  destruct (request_interceptor_fields c config) as (_ & _ & _ & Hr).
  fold config1 in Hr.
  rewrite client_unfold. cbv zeta. fold config1. rewrite H401.
  rewrite bool_decide_eq_true_2 by done. rewrite Hr, Hfresh. simpl negb.
  rewrite andb_true_r.
  rewrite refreshAccessToken_idle by exact Hp.
  change (APIClient.getRefreshToken (with_calls (calls c ++ [config1]) c))
    with (APIClient.getRefreshToken c).
  rewrite Hrt, Hrtt. cbv zeta.
  change (APIClient.request_interceptor (with_calls (calls c ++ [config1]) c))
    with (APIClient.request_interceptor c).
  fold rconfig.
  change (calls (with_calls (calls c ++ [config1]) c)) with (calls c ++ [config1]).
  rewrite Hrefuse. rewrite bool_decide_eq_true_2 by done.
  rewrite refresh_settle_pending. cbn [mbind option_bind].
  eexists. split; [reflexivity|]. split; [done|]. split; [done|].
  split; [by eexists|].
  intros fuel' backend' config' Hfresh' H401'.
  rewrite (client_in_flight fuel' backend' _ config'
             (length (calls c ++ [config1]))) by reflexivity.
  cbv zeta. rewrite H401'.
  destruct (request_interceptor_fields
              (with_calls ((calls c ++ [config1]) ++ [rconfig])
                 (with_refreshPromise (Some (length (calls c ++ [config1])))
                    (with_calls (calls c ++ [config1]) c))) config')
    as (_ & _ & _ & ->).
  rewrite Hfresh'. by rewrite bool_decide_eq_true_2.
Qed.

Lemma refresh_401_never_settles_witness :
  exists c',
    APIClient.client 2 (refusing 401) stale list_users = Some (Pending, c')
    /\ localStorage c' = localStorage stale
    /\ fst <$> APIClient.client 1 (refusing 401) c' list_users = Some Pending.
Proof.
  destruct (refresh_401_never_settles 0 (refusing 401) stale list_users "r0")
    as (c' & Hrun & _ & Hl & _ & Hlater); try reflexivity.
  exists c'. split; [exact Hrun|]. split; [exact Hl|].
  apply Hlater; [reflexivity|].
  injection Hrun as <-. reflexivity.
Defined.

(** ** logout *)

(** X16.  [apiClient.logout] never rejects.  Whenever it completes, all
    four stored entries are gone; it leaves the auth store as it was (the
    store's own [logout] is a separate call); with no usable refresh token
    stored it completes without sending anything; and it sends at most
    three requests otherwise. *)
Theorem logout_clears_tokens (fuel : nat) (backend : Backend) (c : Client) :
  exists r c' new,
    APIClient.logout (S (S fuel)) backend c = Some (r, c')
    /\ (r = Resolved tt \/ r = Pending)
    /\ (r = Resolved tt -> no_tokens c')
    /\ store c' = store c
    /\ calls c' = calls c ++ new
    /\ length new <= 3
    /\ (truthy (APIClient.getRefreshToken c) = false ->
        r = Resolved tt /\ new = []).
Proof.
  unfold APIClient.logout.
  assert (Hquiet : exists r c' new,
    Some (Resolved tt, APIClient.clearTokens c) = Some (r, c')
    /\ (r = Resolved tt \/ r = Pending)
    /\ (r = Resolved tt -> no_tokens c')
    /\ store c' = store c /\ calls c' = calls c ++ new /\ length new <= 3
    /\ (truthy (APIClient.getRefreshToken c) = false ->
        r = Resolved tt /\ new = [])).
  { exists (Resolved tt), (APIClient.clearTokens c), [].
    split; [done|]. split; [by left|].
    split; [intros _; apply no_tokens_clearTokens|].
    split; [done|]. split; [by rewrite app_nil_r|]. split; [simpl; lia|done]. }
  destruct (APIClient.getRefreshToken c) as [rt|] eqn:Hrt; [|exact Hquiet].
  destruct (truthy (Some rt)) eqn:Ht; [|exact Hquiet].
  destruct (client_total fuel backend c (APIClient.logout_config rt))
    as (r & c1 & new & -> & Hcalls & Hlen & _ & (Hs & _)).
  cbn [mbind option_bind].
  assert (Hdone : exists r' c' new',
    Some (Resolved tt, APIClient.clearTokens c1) = Some (r', c')
    /\ (r' = Resolved tt \/ r' = Pending)
    /\ (r' = Resolved tt -> no_tokens c')
    /\ store c' = store c /\ calls c' = calls c ++ new' /\ length new' <= 3
    /\ (true = false -> r' = Resolved tt /\ new' = [])).
  { exists (Resolved tt), (APIClient.clearTokens c1), new.
    split; [done|]. split; [by left|].
    split; [intros _; apply no_tokens_clearTokens|]. by repeat split. }
  destruct r as [data|e|]; [exact Hdone|exact Hdone|].
  exists Pending, c1, new. split; [done|]. split; [by right|]. by repeat split.
Qed.

(** X17.  Once a logout has completed, a second one sends nothing and
    completes at once: there is no refresh token left to revoke. *)
Theorem logout_twice
    (fuel fuel' : nat) (backend backend' : Backend) (c c' : Client) :
  APIClient.logout fuel backend c = Some (Resolved tt, c') ->
  APIClient.logout fuel' backend' c' = Some (Resolved tt, c').
Proof.
  intros Hfirst.
  assert (Hno : no_tokens c').
  { unfold APIClient.logout in Hfirst.
    destruct (APIClient.getRefreshToken c) as [rt|].
    - destruct (truthy (Some rt)).
      + destruct (APIClient.client fuel backend c _) as [[r c1]|]; [|done].
        simpl in Hfirst.
        destruct r as [data|e|]; [| |done];
          injection Hfirst as <-; apply no_tokens_clearTokens.
      + injection Hfirst as <-. apply no_tokens_clearTokens.
    - injection Hfirst as <-. apply no_tokens_clearTokens. }
  unfold APIClient.logout.
  destruct (no_tokens_getters c' Hno) as [_ ->].
  by rewrite (clearTokens_no_tokens c' Hno).
Qed.

Lemma logout_twice_witness :
  exists c',
    APIClient.logout 2 accepting stale = Some (Resolved tt, c')
    /\ APIClient.logout 0 rotating c' = Some (Resolved tt, c').
Proof.
  eexists. split; [reflexivity|].
  apply (logout_twice 2 0 accepting rotating stale). reflexivity.
Defined.

(** ** After the exchange has settled *)

Lemma run_calls_no_token (n : nat) (c : Client) :
  refreshPromise c = None ->
  truthy (APIClient.getRefreshToken c) = false ->
  SingleFlight.run (replicate n SingleFlight.CallRefresh) c
  = (replicate n APIClient.NoRefreshToken, c).
Proof.
  intros Hp Hno.
  assert (Hcall : SingleFlight.refresh_call c = (APIClient.NoRefreshToken, c)).
  { unfold SingleFlight.refresh_call, APIClient.refresh_begin. rewrite Hp.
    destruct (APIClient.getRefreshToken c) as [rt|]; [by rewrite Hno|done]. }
  induction n as [|n IH]; [done|]. simpl. by rewrite Hcall, IH.
Qed.

(** X18.  What follows a settlement.  After a refused exchange the
    refresh token is gone, so however many callers come next, none starts
    an exchange and each gets null.  After a granted exchange the very same
    refresh token is still stored, and the next caller presents it again in
    a new exchange. *)
Theorem after_the_exchange_settles (c : Client) (p : Promise) :
  refreshPromise c = Some p ->
  (forall e n,
     SingleFlight.run
       (SingleFlight.ExchangeSettles (Rejected e)
          :: replicate n SingleFlight.CallRefresh) c
     = (replicate n APIClient.NoRefreshToken,
        with_refreshPromise None (APIClient.clearTokens c)))
  /\ (forall data rt,
        APIClient.getRefreshToken c = Some rt ->
        truthy (Some rt) = true ->
        exists c',
          SingleFlight.run
            [SingleFlight.ExchangeSettles (Resolved data);
             SingleFlight.CallRefresh] c
          = ([APIClient.Issued (length (calls c)) (APIClient.refresh_config rt)],
             c')
          /\ SingleFlight.exchanges c' = S (SingleFlight.exchanges c)).
Proof.
  intros Hp. split.
  - intros e n. cbn [SingleFlight.run SingleFlight.event_step]. rewrite Hp.
    rewrite refresh_settle_rejected. cbn [snd].
    rewrite run_calls_no_token; [done|done|].
    destruct (no_tokens_getters _ (no_tokens_clearTokens c)) as [_ Hgone].
    change (truthy (APIClient.getRefreshToken (APIClient.clearTokens c)) = false).
    by rewrite Hgone.
  - intros data rt Hrt Ht.
    cbn [SingleFlight.run SingleFlight.event_step]. rewrite Hp.
    rewrite refresh_settle_granted. cbn [snd].
    set (c1 := with_refreshPromise None (APIClient.refresh_then data c).2).
    assert (Hrt1 : APIClient.getRefreshToken c1 = Some rt).
    { rewrite <- Hrt.
      destruct (refresh_then_storage data c) as (H1 & H2 & _).
      apply getRefreshToken_frame; [exact H1 | exact H2]. }
    destruct (refresh_call_issues c1 rt eq_refl Hrt1 Ht) as (c' & -> & _ & Hex).
    assert (Hcalls : calls c1 = calls c)
      by exact (calls_refresh_then data c).
    exists c'. split.
    + by rewrite Hcalls.
    + rewrite Hex. unfold SingleFlight.exchanges. by rewrite Hcalls.
Qed.

Lemma after_the_exchange_settles_witness :
  SingleFlight.run
    (SingleFlight.ExchangeSettles (Rejected expired)
       :: replicate 3 SingleFlight.CallRefresh)
    (with_refreshPromise (Some 0) stale)
  = (replicate 3 APIClient.NoRefreshToken,
     with_refreshPromise None
       (APIClient.clearTokens (with_refreshPromise (Some 0) stale))).
Proof.
  apply (proj1 (after_the_exchange_settles (with_refreshPromise (Some 0) stale)
                  0 eq_refl)).
Defined.

(** ** Bootstrap, once more *)

Lemma before_eq_truthy (v : string) :
  truthy (Some (AuthInitializer.before_eq (AuthInitializer.written v))) = true ->
  truthy (Some v) = true.
Proof. by destruct v. Qed.

Lemma written_as_is_id (v : string) :
  written_as_is v = true -> AuthInitializer.written v = v.
Proof.
  induction v as [|ch rest IH]; [done|]. simpl.
  intros [Hch Hrest]%andb_true_iff. by rewrite Hch, IH.
Qed.

Lemma found_in_cookie (v : string) :
  truthy (Some (AuthInitializer.before_eq (AuthInitializer.written v)))
  = truthy (Some (AuthInitializer.before_eq v)).
Proof.
  destruct v as [|ch rest]; [done|].
  cbn [AuthInitializer.written].
  destruct (AuthInitializer.kept ch) eqn:Hkept.
  { cbn [AuthInitializer.before_eq].
    by destruct (Ascii.eqb ch (Ascii.ascii_of_nat 61)). }
  cbn [AuthInitializer.before_eq].
  destruct (Ascii.eqb ch (Ascii.ascii_of_nat 61)) eqn:Heq.
  - apply Ascii.eqb_eq in Heq. subst ch. vm_compute in Hkept. discriminate.
  - reflexivity.
Qed.

Lemma before_eq_no_equals_sign (v : string) :
  no_equals_sign v = true -> AuthInitializer.before_eq v = v.
Proof.
  induction v as [|ch rest IH]; [done|]. simpl.
  intros [Hch Hrest]%andb_true_iff. apply negb_true_iff in Hch.
  by rewrite Hch, IH.
Qed.

Lemma found_token_is_usable (c : Client) :
  truthy (AuthInitializer.stored_access_token c) = true ->
  exists t, APIClient.getAccessToken c = Some t /\ truthy (Some t) = true.
Proof.
  unfold AuthInitializer.stored_access_token,
    AuthInitializer.document_cookie_access_token,
    APIClient.getAccessToken, js_or, Cookies_get, localStorage_getItem.
  destruct (cookies c !! "access_token") as [ck|].
  - destruct (truthy (Some ck)) eqn:Hc; [intros _; by exists ck|].
    destruct (localStorage c !! "access_token") as [ls|].
    + destruct (truthy (Some ls)) eqn:Hl; [intros _; by exists ls|].
      intros Hfound. apply before_eq_truthy in Hfound. congruence.
    + change (truthy None) with false. cbv iota.
      intros Hfound. apply before_eq_truthy in Hfound. congruence.
  - destruct (localStorage c !! "access_token") as [ls|].
    + destruct (truthy (Some ls)) eqn:Hl; [intros _; by exists ls|done].
    + done.
Qed.

(** X19.  Whenever the bootstrap finds a stored token, the API client
    has one too, so the who-am-I request goes out with an Authorization
    header.  Of a token kept in the cookie jar the bootstrap reads the
    written (percent-encoded) text up to its first '=': it finds the token
    exactly when the token is non-empty and does not begin with '=', and it
    reads the token itself when the token has no '=' and only characters
    that are written as they are. *)
Theorem bootstrap_token_is_attachable (c : Client) :
  (truthy (AuthInitializer.stored_access_token c) = true ->
   exists t,
     APIClient.getAccessToken c = Some t
     /\ truthy (Some t) = true
     /\ forall config,
          Config.Authorization (APIClient.request_interceptor c config)
          = Some ("Bearer " +:+ t))
  /\ (forall v,
        AuthInitializer.document_cookie_access_token
          (Cookies_set "access_token" v c)
        = Some (AuthInitializer.before_eq (AuthInitializer.written v))
        /\ truthy (AuthInitializer.document_cookie_access_token
                     (Cookies_set "access_token" v c))
           = truthy (Some (AuthInitializer.before_eq v)))
  /\ (forall v,
        truthy (Some v) = true ->
        written_as_is v = true ->
        no_equals_sign v = true ->
        AuthInitializer.document_cookie_access_token
          (Cookies_set "access_token" v c) = Some v
        /\ truthy (AuthInitializer.stored_access_token
                     (Cookies_set "access_token" v c)) = true).
Proof.
  assert (Hread : forall v,
            AuthInitializer.document_cookie_access_token
              (Cookies_set "access_token" v c)
            = Some (AuthInitializer.before_eq (AuthInitializer.written v))).
  { intros v.
    unfold AuthInitializer.document_cookie_access_token, Cookies_set. simpl.
    by rewrite lookup_insert_eq. }
  split; [|split].
  - intros Hfound.
    assert (Htok : exists t, APIClient.getAccessToken c = Some t
                             /\ truthy (Some t) = true).
    { by apply found_token_is_usable. }
    destruct Htok as (t & Ht & Htt). exists t. split; [done|]. split; [done|].
    intros config. by rewrite (request_interceptor_attaches c config t Ht Htt).
  - intros v. split; [apply Hread|]. rewrite Hread. apply found_in_cookie.
  - intros v Hv Hplain Hne.
    assert (Hdoc : AuthInitializer.document_cookie_access_token
                     (Cookies_set "access_token" v c) = Some v).
    { by rewrite Hread, written_as_is_id, before_eq_no_equals_sign. }
    split; [done|].
    unfold AuthInitializer.stored_access_token, js_or. rewrite Hdoc.
    by destruct (truthy (localStorage_getItem _ _)) eqn:E.
Qed.

Lemma bootstrap_token_is_attachable_witness :
  (exists t,
     APIClient.getAccessToken stale = Some t
     /\ Config.Authorization (APIClient.request_interceptor stale list_users)
        = Some ("Bearer " +:+ t))
  /\ AuthInitializer.document_cookie_access_token
       (Cookies_set "access_token" "eyJh.bGci-O_iJ" nobody)
     = Some "eyJh.bGci-O_iJ"
  /\ AuthInitializer.document_cookie_access_token
       (Cookies_set "access_token" "a b" nobody)
     = Some "a%20b".
Proof.
  split; [|split].
  - destruct (proj1 (bootstrap_token_is_attachable stale) eq_refl)
      as (t & Ht & _ & Hattach).
    exists t. split; [exact Ht | apply Hattach].
  - apply (proj2 (proj2 (bootstrap_token_is_attachable nobody))
             "eyJh.bGci-O_iJ"); reflexivity.
  - apply (proj1 (proj1 (proj2 (bootstrap_token_is_attachable nobody)) "a b")).
Defined.

Lemma on_error_no_token (c : Client) :
  truthy (AuthInitializer.stored_access_token (AuthInitializer.on_error c))
  = false.
Proof.
  unfold AuthInitializer.stored_access_token,
    AuthInitializer.document_cookie_access_token, js_or,
    localStorage_getItem, AuthInitializer.on_error. simpl.
  by simplify_map_eq.
Qed.

(** X20.  A bootstrap whose who-am-I call was refused leaves nothing
    for the next one to try: run again, with whatever who-am-I call, it
    makes no call and ends with no user and the loading flag down. *)
Theorem failed_bootstrap_is_not_repeated
    (g g' : Client -> Outcome User.t * Client) (c : Client) (e : AxiosError.t) :
  truthy (AuthInitializer.stored_access_token c) = true ->
  (g (dispatch (Store.SetLoading true) c)).1 = Rejected e ->
  let c1 := AuthInitializer.initializeAuth g c in
  AuthInitializer.initializeAuth g' c1
  = dispatch (Store.SetLoading false)
      (dispatch (Store.SetUser None) (dispatch (Store.SetLoading true) c1))
  /\ Store.user (store (AuthInitializer.initializeAuth g' c1)) = None
  /\ Store.isLoading (store (AuthInitializer.initializeAuth g' c1)) = false.
Proof.
  intros Hyes Hrej. cbv zeta.
  assert (Hno : truthy (AuthInitializer.stored_access_token
                          (AuthInitializer.initializeAuth g c)) = false).
  { rewrite (initializeAuth_token g c Hyes). cbv zeta. rewrite Hrej.
    exact (on_error_no_token _). }
  rewrite (initializeAuth_no_token g' _ Hno). by repeat split.
Qed.

Lemma failed_bootstrap_is_not_repeated_witness :
  Store.user (store
    (AuthInitializer.initializeAuth
       (fun x => (Resolved (person "root@x.com" true []), x))
       (AuthInitializer.initializeAuth (fun x => (Rejected expired, x)) stale)))
  = None.
Proof.
  apply (failed_bootstrap_is_not_repeated
           (fun x => (Rejected expired, x))
           (fun x => (Resolved (person "root@x.com" true []), x))
           stale expired eq_refl eq_refl).
Defined.

(** X21.  Where the landing page sends the visitor once the bootstrap is
    over: to /login when no token was stored or the who-am-I call was
    refused, to /dashboard when it succeeded; and nowhere, spinner up,
    while the call has not settled. *)
Theorem landing_after_bootstrap
    (g : Client -> Outcome User.t * Client) (c : Client) :
  (forall x, same_ui x (g x).2) ->
  let r := (g (dispatch (Store.SetLoading true) c)).1 in
  HomePage.redirect (store (AuthInitializer.initializeAuth g c))
  = if truthy (AuthInitializer.stored_access_token c)
    then match r with
         | Resolved _ => Some "/dashboard"
         | Rejected _ => Some "/login"
         | Pending => None
         end
    else Some "/login".
Proof.
  intros Hg. cbv zeta.
  destruct (truthy (AuthInitializer.stored_access_token c)) eqn:Htok.
  - rewrite (initializeAuth_token g c Htok). cbv zeta.
    destruct (Hg (dispatch (Store.SetLoading true) c)) as (Hs & _).
    destruct (g _) as [[u|e|] c1]; simpl in *; [done|done|].
    by rewrite Hs.
  - by rewrite (initializeAuth_no_token g c Htok).
Qed.

Lemma landing_after_bootstrap_witness :
  HomePage.redirect
    (store (AuthInitializer.initializeAuth (fun x => (Pending, x)) stale))
  = None.
Proof.
  apply (landing_after_bootstrap (fun x => (Pending, x)) stale
           (fun x => same_ui_refl x)).
Defined.

(** ** The login form *)

(** [handle2FASubmit] is [handle2FASubmit_with] for a call that leaves
    the client as it is. *)
Lemma handle2FASubmit_as_with
    (onSuccess : option (Client -> Client)) (redirectTo code : string)
    (http : Outcome LoginResponse.t) (pg : LoginForm.Page) :
  LoginForm.handle2FASubmit onSuccess redirectTo code http pg
  = LoginForm.handle2FASubmit_with onSuccess redirectTo code
      (fun c => (http, c)) pg.
Proof. reflexivity. Qed.

Lemma handle2FASubmit_with_rejected
    (onSuccess : option (Client -> Client)) (redirectTo code : string)
    (login2FA : Client -> Outcome LoginResponse.t * Client)
    (e : AxiosError.t) (pg : LoginForm.Page) (c1 : Client) :
  login2FA (localStorage_setItem "access_token"
              (LoginForm.tempToken (LoginForm.form pg)) (LoginForm.client pg))
    = (Rejected e, c1) ->
  LoginForm.handle2FASubmit_with onSuccess redirectTo code login2FA pg
  = LoginForm.mkPage
      (match localStorage_getItem "access_token" c1 with
       | Some t1 =>
           if truthy (Some t1)
              && negb (String.eqb t1 (LoginForm.tempToken (LoginForm.form pg)))
           then localStorage_setItem "access_token" t1 c1
           else localStorage_removeItem "access_token" c1
       | None => localStorage_removeItem "access_token" c1
       end)
      (LoginForm.setIsLoading false
         (LoginForm.setIsLoading true (LoginForm.form pg))).
Proof.
  intros Hcall. unfold LoginForm.handle2FASubmit_with. cbv zeta.
  change (LoginForm.tempToken (LoginForm.setIsLoading true (LoginForm.form pg)))
    with (LoginForm.tempToken (LoginForm.form pg)).
  by rewrite Hcall.
Qed.

(** X22.  After a rejected code the access token that localStorage held
    before the submit is never put back.  What localStorage holds then is
    decided by what the call left there: nothing, when the call left the
    provisional token in place (or an empty one), and otherwise the token
    the call itself put there (the interceptor's refresh), which stays.
    The other entries of localStorage, the cookies and the auth store are
    as the call left them, and the form stays on the code entry, no longer
    loading. *)
Theorem rejected_code_drops_access_token
    (onSuccess : option (Client -> Client)) (redirectTo code : string)
    (login2FA : Client -> Outcome LoginResponse.t * Client)
    (e : AxiosError.t) (pg : LoginForm.Page) (c1 : Client) :
  let t := LoginForm.tempToken (LoginForm.form pg) in
  login2FA (localStorage_setItem "access_token" t (LoginForm.client pg))
    = (Rejected e, c1) ->
  let pg' :=
    LoginForm.handle2FASubmit_with onSuccess redirectTo code login2FA pg in
  let c' := LoginForm.client pg' in
  localStorage_getItem "access_token" c'
    = match localStorage_getItem "access_token" c1 with
      | Some t1 =>
          if truthy (Some t1) && negb (String.eqb t1 t) then Some t1 else None
      | None => None
      end
  /\ (localStorage_getItem "access_token" c1 = Some t ->
      localStorage c' = delete "access_token" (localStorage c1)
      /\ localStorage_getItem "access_token" c' = None)
  /\ (forall k, k <> "access_token" ->
                localStorage_getItem k c' = localStorage_getItem k c1)
  /\ cookies c' = cookies c1
  /\ store c' = store c1
  /\ LoginForm.isLoading (LoginForm.form pg') = false
  /\ LoginForm.show2FA (LoginForm.form pg') = LoginForm.show2FA (LoginForm.form pg).
Proof.
  intros t Hcall pg' c'. subst pg' c'.
  rewrite (handle2FASubmit_with_rejected _ _ _ _ e pg c1 Hcall). fold t.
  cbn [LoginForm.client LoginForm.form].
  unfold localStorage_getItem, localStorage_removeItem, localStorage_setItem.
  destruct (localStorage c1 !! "access_token") as [t1|] eqn:Hls.
  - destruct (truthy (Some t1) && negb (String.eqb t1 t)) eqn:Hkeep.
    + simpl. rewrite lookup_insert_eq. split; [done|]. split.
      { intros [= ->]. rewrite String.eqb_refl in Hkeep. simpl in Hkeep.
        by rewrite andb_false_r in Hkeep. }
      split; [|done]. intros k Hk. by rewrite lookup_insert_ne.
    + simpl. rewrite lookup_delete_eq. split; [done|]. split; [done|].
      split; [|done]. intros k Hk. by rewrite lookup_delete_ne.
  - simpl. rewrite lookup_delete_eq. split; [done|]. split; [done|].
    split; [|done]. intros k Hk. by rewrite lookup_delete_ne.
Qed.

(** Two rejected codes.  The backend refuses the code outright: the
    provisional token is removed.  The backend answers 401 to the code,
    grants the refresh that the interceptor then makes with the provisional
    refresh token, and answers 401 to the retry: the refreshed token
    stays. *)
Lemma rejected_code_drops_access_token_witness :
  let pg :=
    LoginForm.onSubmit None "/dashboard" (credentials None)
      (Resolved provisional_response)
      (LoginForm.mkPage nobody LoginForm.initial) in
  let verify :=
    Config.mk "POST" "/auth/login/2fa" [("code", "000000")] None false in
  let through (backend : Backend) (c : Client)
    : Outcome LoginResponse.t * Client :=
    match APIClient.client 2 backend c verify with
    | Some (Rejected e, c') => (Rejected e, c')
    | _ => (Pending, c)
    end in
  localStorage_getItem "access_token"
    (LoginForm.client
       (LoginForm.handle2FASubmit_with None "/dashboard" "000000"
          (through (fun _ _ => Fail (Some 400%Z))) pg)) = None
  /\ localStorage_getItem "access_token"
       (LoginForm.client
          (LoginForm.handle2FASubmit_with None "/dashboard" "000000"
             (through rotating) pg)) = Some "a1".
Proof.
  intros pg verify through.
  set (c0 := localStorage_setItem "access_token"
               (LoginForm.tempToken (LoginForm.form pg)) (LoginForm.client pg)).
  split.
  - set (call := through (fun _ _ => Fail (Some 400%Z))).
    assert (Hcall : call c0 = ((call c0).1, (call c0).2))
      by (by destruct (call c0)).
    assert (Hrej : (call c0).1
                   = Rejected (AxiosError.mk (Some 400%Z)
                       (Config.mk "POST" "/auth/login/2fa" [("code", "000000")]
                                  (Some "Bearer tmp-access") false)))
      by (vm_compute; reflexivity).
    rewrite Hrej in Hcall.
    destruct (rejected_code_drops_access_token None "/dashboard" "000000"
                call _ pg _ Hcall) as (_ & Hgone & _).
    apply Hgone. vm_compute. reflexivity.
  - set (call := through rotating).
    assert (Hcall : call c0 = ((call c0).1, (call c0).2))
      by (by destruct (call c0)).
    assert (Hrej : (call c0).1
                   = Rejected (AxiosError.mk (Some 401%Z)
                       (Config.mk "POST" "/auth/login/2fa" [("code", "000000")]
                                  (Some "Bearer a1") true)))
      by (vm_compute; reflexivity).
    rewrite Hrej in Hcall.
    destruct (rejected_code_drops_access_token None "/dashboard" "000000"
                call _ pg _ Hcall) as (Hleft & _).
    rewrite Hleft. vm_compute. reflexivity.
Defined.

(** X23.  A login completed through the second factor.  The user
    returned is signed in and the real pair is written to localStorage,
    whatever [remember_me] said.  The cookie jar is left as the call left
    it, so the token the API client goes on using is the cookie token, if
    a usable one is there, and the real one only otherwise.  After a
    remembered login whose call left the cookies alone that is the
    provisional token. *)
Theorem second_factor_login_tokens
    (onSuccess : option (Client -> Client)) (redirectTo redirectTo' code : string)
    (data : LoginRequest.t) (provisional real : LoginResponse.t)
    (login2FA : Client -> Outcome LoginResponse.t * Client)
    (pg : LoginForm.Page) (c1 : Client) :
  LoginResponse.message provisional = "Two-factor authentication required" ->
  let pg0 := LoginForm.onSubmit onSuccess redirectTo data (Resolved provisional) pg in
  let c0 :=
    localStorage_setItem "access_token"
      (Token.access_token (LoginResponse.token provisional))
      (LoginForm.client pg0) in
  login2FA c0 = (Resolved real, c1) ->
  let pg' := LoginForm.handle2FASubmit_with None redirectTo' code login2FA pg0 in
  let c' := LoginForm.client pg' in
  Store.user (store c') = Some (LoginResponse.user real)
  /\ Store.isAuthenticated (store c') = true
  /\ location c' = redirectTo'
  /\ localStorage_getItem "access_token" c'
     = Some (Token.access_token (LoginResponse.token real))
  /\ localStorage_getItem "refresh_token" c'
     = Some (Token.refresh_token (LoginResponse.token real))
  /\ cookies c' = cookies c1
  /\ APIClient.getAccessToken c'
     = js_or (Cookies_get "access_token" c1)
             (Some (Token.access_token (LoginResponse.token real)))
  /\ (LoginRequest.remember_me data = Some true ->
      cookies c1 = cookies c0 ->
      truthy (Some (Token.access_token (LoginResponse.token provisional))) = true ->
      APIClient.getAccessToken c'
      = Some (Token.access_token (LoginResponse.token provisional)))
  /\ (truthy (Cookies_get "access_token" c1) = false ->
      APIClient.getAccessToken c'
      = Some (Token.access_token (LoginResponse.token real))).
Proof.
  intros Hmsg pg0 c0 Hcall pg' c'.
  assert (Hpg0 : pg0 = LoginForm.mkPage
            (APIClient.setTokens
               (Token.access_token (LoginResponse.token provisional))
               (Token.refresh_token (LoginResponse.token provisional))
               (LoginRequest.remember_me data) (LoginForm.client pg))
            (LoginForm.setIsLoading false
               (LoginForm.setTempToken
                  (Token.access_token (LoginResponse.token provisional))
                  (LoginForm.setShow2FA true
                     (LoginForm.setIsLoading true (LoginForm.form pg)))))).
  { subst pg0. unfold LoginForm.onSubmit, APIClient.login.
    by rewrite Hmsg, String.eqb_refl. }
  assert (Hpg' : pg' = LoginForm.mkPage
            (with_location redirectTo'
               (dispatch (Store.Login (LoginResponse.user real))
                  (localStorage_setItem "refresh_token"
                     (Token.refresh_token (LoginResponse.token real))
                     (localStorage_setItem "access_token"
                        (Token.access_token (LoginResponse.token real)) c1))))
            (LoginForm.setIsLoading false
               (LoginForm.setIsLoading true (LoginForm.form pg0)))).
  { subst pg'. unfold LoginForm.handle2FASubmit_with. cbv zeta.
    replace (localStorage_setItem "access_token"
               (LoginForm.tempToken
                  (LoginForm.setIsLoading true (LoginForm.form pg0)))
               (LoginForm.client pg0)) with c0
      by (subst c0; by rewrite Hpg0).
    by rewrite Hcall. }
  assert (Hacc : APIClient.getAccessToken c'
                 = js_or (Cookies_get "access_token" c1)
                         (Some (Token.access_token (LoginResponse.token real)))).
  { subst c'. rewrite Hpg'. cbn [LoginForm.client].
    unfold APIClient.getAccessToken, js_or, Cookies_get, localStorage_getItem.
    simpl. rewrite lookup_insert_ne by done. by rewrite lookup_insert_eq. }
  subst c'. rewrite Hacc. rewrite Hpg'. cbn [LoginForm.client].
  unfold localStorage_getItem.
  split; [done|]. split; [done|]. split; [done|].
  split; [simpl; by simplify_map_eq|]. split; [simpl; by simplify_map_eq|].
  split; [done|]. split; [done|]. split.
  - intros Hrem Hck Hp. unfold js_or, Cookies_get. rewrite Hck.
    subst c0. rewrite Hpg0. cbn [LoginForm.client].
    unfold APIClient.setTokens. rewrite Hrem. simpl.
    rewrite lookup_insert_ne by done. rewrite lookup_insert_eq. by rewrite Hp.
  - intros Hck. unfold js_or. by rewrite Hck.
Qed.

Lemma second_factor_login_tokens_witness :
  let pg' :=
    LoginForm.handle2FASubmit_with None "/dashboard" "123456"
      (fun c => (Resolved (session "A1" "R1"), c))
      (LoginForm.onSubmit None "/dashboard" (credentials (Some true))
         (Resolved provisional_response)
         (LoginForm.mkPage nobody LoginForm.initial)) in
  localStorage_getItem "access_token" (LoginForm.client pg') = Some "A1"
  /\ APIClient.getAccessToken (LoginForm.client pg') = Some "tmp-access".
Proof.
  destruct (second_factor_login_tokens None "/dashboard" "/dashboard" "123456"
              (credentials (Some true)) provisional_response
              (session "A1" "R1")
              (fun c => (Resolved (session "A1" "R1"), c))
              (LoginForm.mkPage nobody LoginForm.initial) _
              eq_refl eq_refl)
    as (_ & _ & _ & Hl & _ & _ & _ & Hc & _).
  split; [exact Hl|]. apply Hc; reflexivity.
Defined.

(** ** A granted refresh without an access token *)

Lemma refresh_then_stores (data : Payload) (c : Client) :
  truthy (Some (APIClient.String_ (APIClient.access_token_of data))) = true ->
  APIClient.getAccessToken (APIClient.refresh_then data c).2
  = Some (APIClient.String_ (APIClient.access_token_of data)).
Proof.
  intros Ht. unfold APIClient.getAccessToken, APIClient.refresh_then, js_or.
  simpl. destruct (truthy (Cookies_get "access_token" c)) eqn:Hc; simpl.
  - unfold Cookies_get. simpl. by rewrite lookup_insert_eq, Ht.
  - unfold Cookies_get, localStorage_getItem in *. simpl.
    by rewrite Hc, lookup_insert_eq.
Qed.

(** X24.  When the backend grants the refresh but its answer carries no
    [access_token], the caller gets the original 401 without a retry, and
    the text "undefined" is stored as the access token: from then on every
    request goes out with the header "Bearer undefined". *)
Theorem refresh_without_access_token
    (fuel : nat) (backend : Backend) (c : Client) (config : Config.t)
    (rt : string) (data : Payload) :
  let config1 := APIClient.request_interceptor c config in
  let rconfig := APIClient.request_interceptor c (APIClient.refresh_config rt) in
  refreshPromise c = None ->
  Config._retry config = false ->
  backend (calls c) config1 = Fail (Some 401%Z) ->
  APIClient.getRefreshToken c = Some rt ->
  truthy (Some rt) = true ->
  backend (calls c ++ [config1]) rconfig = Ok data ->
  APIClient.access_token_of data = None ->
  exists c',
    APIClient.client (S (S fuel)) backend c config
      = Some (Rejected (AxiosError.mk (Some 401%Z) (Config.set_retry true config1)),
              c')
    /\ calls c' = calls c ++ [config1; rconfig]
    /\ refreshPromise c' = None
    /\ APIClient.getAccessToken c' = Some "undefined"
    /\ forall config',
         Config.Authorization (APIClient.request_interceptor c' config')
         = Some "Bearer undefined".
Proof.
  intros config1 rconfig Hp Hfresh H401 Hrt Hrtt Hgrant Hnone.
  destruct (request_interceptor_fields c config) as (_ & _ & _ & Hr).
  fold config1 in Hr.
  rewrite client_unfold. cbv zeta. fold config1. rewrite H401.
  rewrite bool_decide_eq_true_2 by done. rewrite Hr, Hfresh. simpl negb.
  rewrite andb_true_r.
  rewrite refreshAccessToken_idle by exact Hp.
  change (APIClient.getRefreshToken (with_calls (calls c ++ [config1]) c))
    with (APIClient.getRefreshToken c).
  rewrite Hrt, Hrtt. cbv zeta.
  change (APIClient.request_interceptor (with_calls (calls c ++ [config1]) c))
    with (APIClient.request_interceptor c).
  fold rconfig.
  change (calls (with_calls (calls c ++ [config1]) c)) with (calls c ++ [config1]).
  rewrite Hgrant, refresh_settle_granted. rewrite Hnone.
  cbn [mbind option_bind].
  set (c1 := with_calls ((calls c ++ [config1]) ++ [rconfig]) _).
  assert (Hacc : APIClient.getAccessToken
                   (with_refreshPromise None (APIClient.refresh_then data c1).2)
                 = Some "undefined").
  { pose proof (refresh_then_stores data c1) as H. rewrite Hnone in H.
    exact (H eq_refl). }
  eexists. split; [reflexivity|]. split.
  { transitivity (calls (APIClient.refresh_then data c1).2); [reflexivity|].
    rewrite calls_refresh_then. unfold c1. simpl calls. by rewrite <- app_assoc. }
  split; [reflexivity|]. split; [exact Hacc|].
  intros config'.
  by rewrite (request_interceptor_attaches _ config' "undefined" Hacc eq_refl).
Qed.

Lemma refresh_without_access_token_witness :
  exists c',
    APIClient.client 2
      (fun _ q => if SingleFlight.is_refresh q
                  then Ok (OtherData "{}") else Fail (Some 401%Z))
      stale list_users
    = Some (Rejected (AxiosError.mk (Some 401%Z)
              (Config.mk "GET" "/users/" [] (Some "Bearer a0") true)), c')
    /\ APIClient.getAccessToken c' = Some "undefined".
Proof.
  destruct (refresh_without_access_token 0
              (fun _ q => if SingleFlight.is_refresh q
                          then Ok (OtherData "{}") else Fail (Some 401%Z))
              stale list_users "r0" (OtherData "{}"))
    as (c' & Hrun & _ & _ & Hacc & _); try reflexivity.
  exists c'. split; [exact Hrun | exact Hacc].
Defined.
